(** * The Llama3.1 chat page (examples/gui/pages/llama3_1.py)

    A shallow embedding of the Streamlit page script.  The framework re-runs
    the whole script, top to bottom, on every interaction; one such re-run is
    the function [script] below, run on the session state the framework
    keeps between re-runs and on the widget values of that interaction.

    Python dictionaries are finite maps ([gmap]), the session state is a
    finite map from keys to dynamically typed values, exceptions raised by
    the script's own subscripts are an error monad layered over the state,
    and every call that leaves the script is recorded in a trace. *)

From stdpp Require Import gmap strings list fin_maps.

Local Open Scope Z_scope.

(** ** Data *)

(** [pipelines.llama3.config.SupportedEncodings], with the members the page
    names (lines 84-86 and 91-95). *)
Inductive SupportedEncodings := float32 | bfloat16 | q4_0 | q4_k | q6_k.

#[global] Instance SupportedEncodings_eq_dec : EqDecision SupportedEncodings.
Proof. solve_decision. Defined.

Definition SupportedEncodings_to_nat (e : SupportedEncodings) : nat :=
  match e with
  | float32 => 0 | bfloat16 => 1 | q4_0 => 2 | q4_k => 3 | q6_k => 4
  end%nat.

Definition SupportedEncodings_of_nat (n : nat) : option SupportedEncodings :=
  match n with
  | 0 => Some float32 | 1 => Some bfloat16 | 2 => Some q4_0
  | 3 => Some q4_k | 4 => Some q6_k | _ => None
  end%nat.

#[global] Instance SupportedEncodings_countable : Countable SupportedEncodings.
Proof.
  apply (inj_countable SupportedEncodings_to_nat SupportedEncodings_of_nat).
  by intros [].
Defined.

(** [InferenceConfig(weight_path=, quantization_encoding=, max_length=,
    max_new_tokens=)] as [start_llama3] builds it (lines 61-66). *)
Record InferenceConfig := {
  weight_path : string;
  quantization_encoding : SupportedEncodings;
  max_length : Z;
  max_new_tokens : Z
}.

(** A Python [dict[str, str]]: chat messages and retrieval metadata. *)
Abbreviation dict := (gmap string string).

(** What [collection.query] returns, read through [ret["documents"]] and
    [ret["metadatas"]]; either may be [None] (line 166). *)
Record QueryResult := {
  documents : option (list (list string));
  metadatas : option (list (list dict))
}.

(** Exceptions the script's own subscripts can raise. *)
Inductive exn :=
| KeyError (key : string)
| IndexError
| AttributeError (name : string)
| TypeError.

(** ** The libraries the page calls

    Everything imported from [shared], [pipelines.llama3], [os] and the
    embedding and vector-store clients.  The calls are taken at their normal
    return. *)
Class Externals := {
  Llama3 : Type;
  Collection : Type;
  EmbeddingModel : Type;
  Embedding : Type;
  (** [Llama3(config)] *)
  Llama3_init : InferenceConfig → Llama3;
  (** [hf_streamlit_download(repo, file)]: the local path of the weights *)
  hf_streamlit_download : string → string → string;
  (** [asyncio.run(stream_output(model, prompt_string))]: the full response *)
  stream_output : Llama3 → string → string;
  (** [RAG_PROMPT.format(query=, data=)] *)
  RAG_PROMPT_format : string → list (string * string) → string;
  RAG_SYSTEM_PROMPT : string;
  (** [load_embed_docs(rag_directory, files_observed)] *)
  load_embed_docs : string → list string → Collection * EmbeddingModel;
  (** [list(embedding_model.embed(prompt))], each vector after [.tolist()] *)
  embed : EmbeddingModel → string → list Embedding;
  (** [collection.query(query_embedding, n_results=)] *)
  collection_query : Collection → Embedding → Z → QueryResult;
  os_listdir : string → list string;
  os_path_join : string → string → string;
  os_path_isfile : string → bool;
  (** [Path(__file__).parent.parent / "ragdata"] *)
  default_rag_directory : string
}.

(** The widget values of one re-run, as the browser sends them.  [None] is a
    widget the user has not touched, which then yields its default. *)
Record Inputs := {
  in_encoding : nat;               (* index picked in the "Encoding" selectbox *)
  in_max_length : option Z;
  in_max_new_tokens : option Z;
  in_button : bool;                (* "Start Llama3" clicked *)
  in_rag : bool;                   (* "Activate RAG" ticked *)
  in_system_prompt : option string;
  in_n_result : option Z;
  in_rag_directory : option string;
  in_chat : option string          (* text submitted in the chat box *)
}.

(** ** Streamlit widgets *)

Definition selectbox {A} (options : list A) (index : nat) : option A :=
  options !! index.

Definition number_input (min_value max_value value : Z) (ui : option Z) : Z :=
  default value ui.

(** [st.slider(label, min_value, max_value, value)]: what the browser
    reports counts when it lies on the track from [min_value] to
    [max_value]; a slider without such a value shows [value]. *)
Definition slider (min_value max_value value : Z) (ui : option Z) : Z :=
  match ui with
  | Some v => if bool_decide (min_value ≤ v ≤ max_value) then v else value
  | None => value
  end.

Definition text_area (value : string) (ui : option string) : string :=
  default value ui.

Definition text_input (value : string) (ui : option string) : string :=
  default value ui.

(** A disabled chat box submits nothing. *)
Definition chat_input (disabled : bool) (ui : option string) : option string :=
  if disabled then None else ui.


(** Python truthiness of the value of [st.chat_input]. *)
Definition truthy (prompt : option string) : option string :=
  match prompt with
  | Some p => if decide (p = EmptyString) then None else Some p
  | None => None
  end.

Definition nl : string := String (Ascii.ascii_of_nat 10) EmptyString.

(** [sep.join(l)] *)
Fixpoint join (sep : string) (l : list string) : string :=
  match l with
  | [] => EmptyString
  | [s] => s
  | s :: l' => s +:+ sep +:+ join sep l'
  end.

(** ** Page constants *)

(** The options of the "Encoding" selectbox (lines 83-87). *)
Definition encoding_options : list SupportedEncodings := [q4_k; q4_0; q6_k].

(** [model_name] (lines 90-96). *)
Definition model_name : gmap SupportedEncodings string :=
  <[float32 := "llama-3.1-8b-instruct-f32.gguf"]>
  (<[bfloat16 := "llama-3.1-8b-instruct-bf16.gguf"]>
  (<[q4_0 := "llama-3.1-8b-instruct-q4_0.gguf"]>
  (<[q4_k := "llama-3.1-8b-instruct-q4_k_m.gguf"]>
  (<[q6_k := "llama-3.1-8b-instruct-q6_k.gguf"]> ∅)))).

Definition user_avatar : string := "💬".
Definition assistant_avatar : string := "🦙".

(** [{"role": r, "content": c}] (lines 157, 159, 172-175, 178) *)
Definition prompt_message (role content : string) : dict :=
  <["role" := role]> (<["content" := content]> ∅).

(** [{"role": r, "avatar": a, "content": c}] (lines 194-195) *)
Definition chat_record (role avatar content : string) : dict :=
  <["role" := role]> (<["avatar" := avatar]> (<["content" := content]> ∅)).

(** ** Session state, trace and the script monad *)

Section Page.
Context `{Ext : Externals}.

(** A value kept in [st.session_state]. *)
Inductive value :=
| VModel (m : Llama3)
| VMessages (l : list dict).

(** Calls that leave the script, in program order. *)
Inductive event :=
| EvDownload (repo_id filename : string)
| EvStartLlama3 (config : InferenceConfig)
| EvLoadEmbedDocs (directory : string) (files : list string)
| EvChatMessage (role avatar : string)
| EvMarkdown (body : string)
| EvChatInput (disabled : bool)
| EvEmbed (text : string)
| EvQuery (query_embedding : Embedding) (n_results : Z)
| EvStreamOutput (model : Llama3) (prompt_string : string).

Record world := World {
  session_state : gmap string value;
  trace : list event
}.

(** A computation either returns or raises; the session state and the trace
    written so far survive a raise. *)
Definition M (A : Type) : Type := world → (exn + A) * world.

Definition ret {A} (a : A) : M A := λ w, (inr a, w).

Definition raise {A} (e : exn) : M A := λ w, (inl e, w).

Definition bind {A B} (c : M A) (k : A → M B) : M B := λ w,
  match c w with
  | (inr a, w') => k a w'
  | (inl e, w') => (inl e, w')
  end.

Definition emit (ev : event) : M unit := λ w,
  (inr tt, World (session_state w) (trace w ++ [ev])).

Definition read_state : M (gmap string value) := λ w, (inr (session_state w), w).

(** [st.session_state[key] = v] *)
Definition setitem (key : string) (v : value) : M unit := λ w,
  (inr tt, World (<[key := v]> (session_state w)) (trace w)).

(** [d[key]] on a dictionary *)
Definition getitem (d : dict) (key : string) : M string :=
  match d !! key with
  | Some v => ret v
  | None => raise (KeyError key)
  end.

#[global] Instance M_ret : MRet M := @ret.
#[global] Instance M_bind : MBind M := λ A B k c, bind c k.

(** A [for] loop over a list *)
Fixpoint for_each {A} (l : list A) (body : A → M unit) : M unit :=
  match l with
  | [] => ret tt
  | a :: l' => body a;; for_each l' body
  end.

(** A list comprehension whose element expression may raise *)
Fixpoint comprehension {A B} (f : A → M B) (l : list A) : M (list B) :=
  match l with
  | [] => ret []
  | a :: l' => b ← f a; bs ← comprehension f l'; ret (b :: bs)
  end.

(** ** The page

    Not modelled, since they neither read nor write anything the script
    uses later: [st.set_page_config], [menu()], the [info] and [success]
    banners, [time.sleep].  [st.cache_resource] only memoises
    [start_llama3]. *)

(** [start_llama3] (lines 55-67) *)
Definition start_llama3 (weight_path : string) (quantization : SupportedEncodings)
    (max_length max_new_tokens : Z) : M Llama3 :=
  let config := {| weight_path := weight_path;
                   quantization_encoding := quantization;
                   max_length := max_length;
                   max_new_tokens := max_new_tokens |} in
  emit (EvStartLlama3 config);;
  ret (Llama3_init config).

(** The [for] loop of [messages_to_llama3_prompt] (lines 72-76), on the
    value of [prompt_string] so far. *)
Fixpoint prompt_loop (messages : list dict) (prompt_string : string) : M string :=
  match messages with
  | [] => ret prompt_string
  | message :: rest =>
      role ← getitem message "role";
      let prompt_string :=
        prompt_string +:+
          ("<|start_header_id|>" +:+ role +:+ "<|end_header_id|>" +:+ nl +:+ nl) in
      content ← getitem message "content";
      let prompt_string := prompt_string +:+ (content +:+ "<|eot_id|>" +:+ nl) in
      prompt_loop rest prompt_string
  end.

(** [messages_to_llama3_prompt] (lines 70-78) *)
Definition messages_to_llama3_prompt (messages : list dict) : M string :=
  let prompt_string := "<|begin_of_text|>" in
  prompt_string ← prompt_loop messages prompt_string;
  let prompt_string :=
    prompt_string +:+ "<|start_header_id|>assistant<|end_header_id|>" in
  ret prompt_string.

(** [model_name[encoding]] (line 102); the selectbox hands over an option of
    its list, or [None]. *)
Definition model_name_getitem (encoding : option SupportedEncodings)
    : M (SupportedEncodings * string) :=
  match encoding with
  | None => raise (KeyError "None")
  | Some e =>
      match model_name !! e with
      | Some file => ret (e, file)
      | None => raise (KeyError "SupportedEncodings")
      end
  end.

(** Lines 81-114: the sidebar's model controls and the start button. *)
Definition model_controls (inp : Inputs) : M unit :=
  let encoding := selectbox encoding_options (in_encoding inp) in
  let max_length := number_input 0 128000 12000 (in_max_length inp) in
  let max_new_tokens := number_input 0 24000 6000 (in_max_new_tokens inp) in
  '(encoding, file) ← model_name_getitem encoding;
  emit (EvDownload "modularai/llama-3.1" file);;
  let weights := hf_streamlit_download "modularai/llama-3.1" file in
  if in_button inp then
    model ← start_llama3 weights encoding max_length max_new_tokens;
    setitem "model" (VModel model)
  else ret tt.

(** What the [if rag:] branch leaves for the chat turn. *)
Record RagContext := {
  n_result : Z;
  collection : Collection;
  embedding_model : EmbeddingModel
}.

(** [files_observed] (lines 130-134) *)
Definition files_observed (rag_directory : string) : list string :=
  List.filter (λ f, os_path_isfile (os_path_join rag_directory f))
    (os_listdir rag_directory).

(** Lines 116-142: the RAG controls; returns [system_prompt] and, when RAG is
    ticked, the collection, the embedding model and the slider value. *)
Definition rag_controls (inp : Inputs) : M (string * option RagContext) :=
  let rag := in_rag inp in
  if rag then
    let system_prompt := text_area RAG_SYSTEM_PROMPT (in_system_prompt inp) in
    let n_result := slider 1 7 5 (in_n_result inp) in
    let rag_directory :=
      text_input default_rag_directory (in_rag_directory inp) in
    let files_observed := files_observed rag_directory in
    emit (EvLoadEmbedDocs rag_directory files_observed);;
    let '(collection, embedding_model) :=
      load_embed_docs rag_directory files_observed in
    ret (system_prompt,
         Some {| n_result := n_result;
                 collection := collection;
                 embedding_model := embedding_model |})
  else
    let system_prompt :=
      text_area "You are a helpful coding assistant named MAX Llama3."
        (in_system_prompt inp) in
    ret (system_prompt, None).

(** [st.session_state.messages] *)
Definition getattr_messages : M (list dict) :=
  ss ← read_state;
  match ss !! "messages" with
  | Some (VMessages l) => ret l
  | Some (VModel _) => raise TypeError
  | None => raise (AttributeError "messages")
  end.

(** [st.session_state["model"]], as an argument of [stream_output] *)
Definition getitem_model : M Llama3 :=
  ss ← read_state;
  match ss !! "model" with
  | Some (VModel m) => ret m
  | Some (VMessages _) => raise TypeError
  | None => raise (KeyError "model")
  end.

(** Lines 144-151: create the history on first use and display it. *)
Definition show_history : M unit :=
  ss ← read_state;
  match ss !! "messages" with
  | None => setitem "messages" (VMessages [])
  | Some _ => ret tt
  end;;
  messages ← getattr_messages;
  for_each messages (λ message,
    role ← getitem message "role";
    avatar ← getitem message "avatar";
    emit (EvChatMessage role avatar);;
    content ← getitem message "content";
    emit (EvMarkdown content)).

(** [disable_chat] (line 154) *)
Definition disable_chat (ss : gmap string value) : bool :=
  match ss !! "model" with
  | None => true
  | Some _ => false
  end.

(** The loop of lines 165-170 over [zip(ret["documents"], ret["metadatas"])]. *)
Definition retrieved_data (ret_ : QueryResult) : M (list (string * string)) :=
  match documents ret_, metadatas ret_ with
  | Some docs, Some metas =>
      comprehension (λ '(doc, metadata),
          match metadata with
          | [] => raise IndexError
          | first :: _ =>
              file_name ← getitem first "file_name";
              ret (join (nl +:+ nl) doc, file_name)
          end)
        (zip docs metas)
  | _, _ => ret []
  end.

(** Lines 162-178: the message for the model, augmented when RAG is on. *)
Definition user_message (rag : option RagContext) (prompt : string) : M dict :=
  match rag with
  | Some rc =>
      emit (EvEmbed prompt);;
      match embed (embedding_model rc) prompt with
      | [] => raise IndexError
      | query_embedding :: _ =>
          emit (EvQuery query_embedding (n_result rc));;
          let ret_ := collection_query (collection rc) query_embedding (n_result rc) in
          data ← retrieved_data ret_;
          ret (prompt_message "user" (RAG_PROMPT_format prompt data))
      end
  | None => ret (prompt_message "user" prompt)
  end.

(** Lines 180-196: show the prompt, stream the answer, record both. *)
Definition reply (messages : list dict) (prompt : string) : M unit :=
  emit (EvChatMessage "user" user_avatar);;
  emit (EvMarkdown prompt);;
  prompt_string ← messages_to_llama3_prompt messages;
  emit (EvChatMessage "assistant" assistant_avatar);;
  model ← getitem_model;
  emit (EvStreamOutput model prompt_string);;
  let response := stream_output model prompt_string in
  history ← getattr_messages;
  setitem "messages"
    (VMessages (history ++ [chat_record "user" user_avatar prompt;
                            chat_record "assistant" assistant_avatar response])).

(** Lines 157-196: one chat turn on a submitted [prompt]. *)
Definition chat_turn (system_prompt : string) (rag : option RagContext)
    (prompt : string) : M unit :=
  let messages := [prompt_message "system" system_prompt] in
  history ← getattr_messages;
  copied ← comprehension (λ m,
      role ← getitem m "role";
      content ← getitem m "content";
      ret (prompt_message role content)) history;
  let messages := messages ++ copied in
  message ← user_message rag prompt;
  let messages := messages ++ [message] in
  reply messages prompt.

(** Lines 154-196: the chat box and, on a submitted prompt, the turn. *)
Definition chat (inp : Inputs) (system_prompt : string)
    (rag : option RagContext) : M unit :=
  ss ← read_state;
  let disable_chat := disable_chat ss in
  emit (EvChatInput disable_chat);;
  match truthy (chat_input disable_chat (in_chat inp)) with
  | Some prompt => chat_turn system_prompt rag prompt
  | None => ret tt
  end.

(** The whole page, top to bottom. *)
Definition script (inp : Inputs) : M unit :=
  model_controls inp;;
  '(system_prompt, rag) ← rag_controls inp;
  show_history;;
  chat inp system_prompt rag.

(** One re-run of the page on the session state the framework kept. *)
Definition rerun (inp : Inputs) (ss : gmap string value) : (exn + unit) * world :=
  script inp (World ss []).

Definition state_after (inp : Inputs) (ss : gmap string value) : gmap string value :=
  session_state (rerun inp ss).2.

(** The session state after a sequence of re-runs from [ss]. *)
Definition reruns (ss : gmap string value) (inps : list Inputs) : gmap string value :=
  foldl (λ ss inp, state_after inp ss) ss inps.

(** A browser session starts with an empty session state. *)
Definition session (inps : list Inputs) : gmap string value := reruns ∅ inps.

(** The chat transcript held in the session state. *)
Definition transcript (ss : gmap string value) : list dict :=
  match ss !! "messages" with
  | Some (VMessages l) => l
  | _ => []
  end.

End Page.

(** ** Specification-side definitions *)

(** The block one message contributes to the prompt, as the claim on
    [messages_to_llama3_prompt] words it. *)
Definition message_block (role content : string) : string :=
  "<|start_header_id|>" +:+ role +:+ "<|end_header_id|>" +:+ nl +:+ nl
    +:+ content +:+ "<|eot_id|>" +:+ nl.

(** The prompt the claim describes, for the roles and contents of the
    messages in list order. *)
Definition blocks (parts : list (string * string)) : string :=
  foldr (λ '(role, content) rest, message_block role content +:+ rest) EmptyString parts.

Definition llama3_prompt_spec (parts : list (string * string)) : string :=
  "<|begin_of_text|>" +:+ blocks parts
    +:+ "<|start_header_id|>assistant<|end_header_id|>".

(** A record of the transcript as the data model describes it: exactly the
    fields role, avatar and content, the role one of the three chat roles. *)
Definition chat_roles : list string := ["system"; "user"; "assistant"].

Definition wf_record (d : dict) : Prop :=
  dom d = {["role"; "avatar"; "content"]} ∧
  ∃ role, d !! "role" = Some role ∧ role ∈ chat_roles.

(** [m] is a message with the given role and content. *)
Definition has_parts (m : dict) (part : string * string) : Prop :=
  m !! "role" = Some part.1 ∧ m !! "content" = Some part.2.

(** The role and content of a message, for messages that have both. *)
Definition role_content (d : dict) : string * string :=
  (default EmptyString (d !! "role"), default EmptyString (d !! "content")).

Section PageFacts.
Context `{Ext : Externals}.

(** Session states in which both keys hold what the page stores there. *)
Definition wf_state (ss : gmap string value) : Prop :=
  (∀ v, ss !! "messages" = Some v → ∃ l, v = VMessages l ∧ Forall wf_record l) ∧
  (∀ v, ss !! "model" = Some v → ∃ m, v = VModel m).

(** A relation between the world before and after a computation holds
    whatever world the computation starts in. *)
Definition preserves (R : relation world) {A} (c : M A) : Prop :=
  ∀ w, R w (c w).2.

(** The transcript after extends the transcript before. *)
Definition extends : relation world :=
  λ w w', transcript (session_state w) `prefix_of` transcript (session_state w').

(** Well-formedness of the session state carries over. *)
Definition keeps_wf : relation world :=
  λ w w', wf_state (session_state w) → wf_state (session_state w').

(** The trace after shows the same selected events as the trace before. *)
Definition same_on {B} (sel : event → option B) : relation world :=
  λ w w', omap sel (trace w') = omap sel (trace w).

(** The projections of a trace the claims speak about. *)
Definition queries (tr : list event) : list (Embedding * Z) :=
  omap (λ ev, match ev with EvQuery e k => Some (e, k) | _ => None end) tr.

Definition indexed (tr : list event) : list (string * list string) :=
  omap (λ ev, match ev with EvLoadEmbedDocs d fs => Some (d, fs) | _ => None end) tr.

Definition streamed (tr : list event) : list (Llama3 * string) :=
  omap (λ ev, match ev with EvStreamOutput m p => Some (m, p) | _ => None end) tr.

Definition chat_inputs (tr : list event) : list bool :=
  omap (λ ev, match ev with EvChatInput d => Some d | _ => None end) tr.

(** The events of a chat turn (lines 157-196). *)
Definition turn_event (ev : event) : Prop :=
  match ev with
  | EvEmbed _ | EvQuery _ _ | EvChatMessage _ _ | EvMarkdown _
  | EvStreamOutput _ _ => True
  | _ => False
  end.

(** What displaying the history sends to the page (lines 149-151). *)
Definition history_events (l : list dict) : list event :=
  flat_map (λ m, [EvChatMessage (default EmptyString (m !! "role")) (default EmptyString (m !! "avatar"));
                  EvMarkdown (default EmptyString (m !! "content"))]) l.

(** The values [rag_controls] computes when RAG is ticked. *)
Definition rag_directory_of (inp : Inputs) : string :=
  text_input default_rag_directory (in_rag_directory inp).

Definition rag_context_of (inp : Inputs) : RagContext :=
  let dir := rag_directory_of inp in
  let loaded := load_embed_docs dir (files_observed dir) in
  {| n_result := slider 1 7 5 (in_n_result inp);
     collection := loaded.1;
     embedding_model := loaded.2 |}.

Definition system_prompt_of (inp : Inputs) : string :=
  if in_rag inp then text_area RAG_SYSTEM_PROMPT (in_system_prompt inp)
  else text_area "You are a helpful coding assistant named MAX Llama3."
         (in_system_prompt inp).

Definition rag_of (inp : Inputs) : option RagContext :=
  if in_rag inp then Some (rag_context_of inp) else None.

(** Retrieval results on which the loop of lines 167-170 finds, for every
    document it visits, a first metadata entry with a file name. *)
Definition well_formed_result (ret_ : QueryResult) : Prop :=
  match documents ret_, metadatas ret_ with
  | Some docs, Some metas =>
      Forall (λ '(doc, metadata),
                ∃ first, head metadata = Some first ∧ is_Some (first !! "file_name"))
             (zip docs metas)
  | _, _ => True
  end.

(** The retrieval step of a turn on [prompt] goes through: RAG is off, or
    the embedding model yields a vector and the collection a result the
    loop can read. *)
Definition retrieval_ok (inp : Inputs) (prompt : string) : Prop :=
  match rag_of inp with
  | None => True
  | Some rc =>
      ∃ e rest, embed (embedding_model rc) prompt = e :: rest ∧
                well_formed_result (collection_query (collection rc) e (n_result rc))
  end.

(** The reading of "the indexer gets every entry of the directory": in a
    re-run, whatever is handed to [load_embed_docs] has the same set of names
    as the directory listing. *)
Definition indexer_gets_every_entry (inp : Inputs) (ss : gmap string value) : Prop :=
  ∀ dir files,
    (dir, files) ∈ indexed (trace (rerun inp ss).2) →
    list_to_set files =@{gset string} list_to_set (os_listdir dir).

End PageFacts.

(** ** A small concrete installation, for examples *)

Definition demo_result : QueryResult :=
  {| documents := Some [["MAX is"; "an engine."]];
     metadatas := Some [[ {["file_name" := "notes.txt"]} ]] |}.

(** A collection that answers without documents. *)
Definition no_hits : QueryResult :=
  {| documents := None; metadatas := Some [] |}.

Definition demo (ret_ : QueryResult) : Externals :=
  {| Llama3 := InferenceConfig;
     Collection := list string;
     EmbeddingModel := unit;
     Embedding := string;
     Llama3_init := λ config, config;
     hf_streamlit_download := λ repo_id filename, repo_id +:+ "/" +:+ filename;
     stream_output := λ _ _, "Hello!";
     RAG_PROMPT_format := λ query data,
       "Context: " +:+ join ";" (map fst data) +:+ " Question: " +:+ query;
     RAG_SYSTEM_PROMPT := "Answer from the context.";
     load_embed_docs := λ _ files, (files, tt);
     embed := λ _ text, [text];
     collection_query := λ _ _ _, ret_;
     os_listdir := λ _, ["notes.txt"; "drafts"];
     os_path_join := λ d f, d +:+ "/" +:+ f;
     os_path_isfile := λ p, bool_decide (p = "ragdata/notes.txt");
     default_rag_directory := "ragdata" |}.

Definition installation : Externals := demo demo_result.

Definition empty_installation : Externals := demo no_hits.

(** Nothing touched, nothing typed. *)
Definition idle : Inputs :=
  {| in_encoding := 0; in_max_length := None; in_max_new_tokens := None;
     in_button := false; in_rag := false; in_system_prompt := None;
     in_n_result := None; in_rag_directory := None; in_chat := None |}.

Definition press_start : Inputs :=
  {| in_encoding := 0; in_max_length := None; in_max_new_tokens := None;
     in_button := true; in_rag := false; in_system_prompt := None;
     in_n_result := None; in_rag_directory := None; in_chat := None |}.

Definition say (rag : bool) (text : string) : Inputs :=
  {| in_encoding := 0; in_max_length := None; in_max_new_tokens := None;
     in_button := false; in_rag := rag; in_system_prompt := None;
     in_n_result := None; in_rag_directory := None; in_chat := Some text |}.

(** A collection without documents: one empty list of each kind. *)
Definition empty_collection : QueryResult :=
  {| documents := Some [[]]; metadatas := Some [[]] |}.

Definition unindexed_installation : Externals := demo empty_collection.

(** An installation whose embedding model yields no vector. *)
Definition mute_installation : Externals :=
  {| Llama3 := InferenceConfig;
     Collection := list string;
     EmbeddingModel := unit;
     Embedding := string;
     Llama3_init := λ config, config;
     hf_streamlit_download := λ repo_id filename, repo_id +:+ "/" +:+ filename;
     stream_output := λ _ _, "Hello!";
     RAG_PROMPT_format := λ query data,
       "Context: " +:+ join ";" (map fst data) +:+ " Question: " +:+ query;
     RAG_SYSTEM_PROMPT := "Answer from the context.";
     load_embed_docs := λ _ files, (files, tt);
     embed := λ _ _, [];
     collection_query := λ _ _ _, demo_result;
     os_listdir := λ _, ["notes.txt"; "drafts"];
     os_path_join := λ d f, d +:+ "/" +:+ f;
     os_path_isfile := λ p, bool_decide (p = "ragdata/notes.txt");
     default_rag_directory := "ragdata" |}.

(** A prompt submitted with RAG ticked and the slider moved to [k]. *)
Definition say_top (k : Z) (text : string) : Inputs :=
  {| in_encoding := 0; in_max_length := None; in_max_new_tokens := None;
     in_button := false; in_rag := true; in_system_prompt := None;
     in_n_result := Some k; in_rag_directory := None; in_chat := Some text |}.

(** The start button pressed and a prompt submitted in one re-run. *)
Definition start_and_say (text : string) : Inputs :=
  {| in_encoding := 2; in_max_length := Some 4096; in_max_new_tokens := None;
     in_button := true; in_rag := false; in_system_prompt := None;
     in_n_result := None; in_rag_directory := None; in_chat := Some text |}.

(** ** Vocabulary for the shape of a session *)

(** The records completed turns leave behind: per turn the user record with
    the prompt, then the assistant record with the response (lines 193-196). *)
Definition dialogue (turns : list (string * string)) : list dict :=
  flat_map (λ '(prompt, response),
              [chat_record "user" user_avatar prompt;
               chat_record "assistant" assistant_avatar response]) turns.

(** The same turns as roles and contents, the way line 159 copies them. *)
Definition dialogue_parts (turns : list (string * string)) : list (string * string) :=
  flat_map (λ '(prompt, response), [("user", prompt); ("assistant", response)]) turns.

(** One entry of [data] (line 170): the documents joined by a blank line,
    and the file name of the first metadata. *)
Definition retrieved_entry (pair : list string * list dict) : string * string :=
  (join (nl +:+ nl) pair.1,
   default EmptyString (head pair.2 ≫= λ first, first !! "file_name")).

(** A pair of [zip(ret["documents"], ret["metadatas"])] the loop can read. *)
Definition readable (pair : list string * list dict) : Prop :=
  ∃ first, head pair.2 = Some first ∧ is_Some (first !! "file_name").

(** The configuration line 108 builds from the widgets, for the selected
    encoding and its weight file. *)
Definition config_of `{Ext : Externals} (inp : Inputs) (e : SupportedEncodings)
    (file : string) : InferenceConfig :=
  {| weight_path := hf_streamlit_download "modularai/llama-3.1" file;
     quantization_encoding := e;
     max_length := number_input 0 128000 12000 (in_max_length inp);
     max_new_tokens := number_input 0 24000 6000 (in_max_new_tokens inp) |}.

Section PageShapes.
Context `{Ext : Externals}.

(** What the history of completed turns looks like on the page. *)
Definition bubbles (turns : list (string * string)) : list event :=
  flat_map (λ '(prompt, response),
              [EvChatMessage "user" user_avatar; EvMarkdown prompt;
               EvChatMessage "assistant" assistant_avatar; EvMarkdown response])
           turns.

Definition downloads (tr : list event) : list (string * string) :=
  omap (λ ev, match ev with EvDownload r f => Some (r, f) | _ => None end) tr.

Definition embedded (tr : list event) : list string :=
  omap (λ ev, match ev with EvEmbed t => Some t | _ => None end) tr.

Definition displayed (tr : list event) : list event :=
  omap (λ ev, match ev with
              | EvChatMessage _ _ | EvMarkdown _ => Some ev
              | _ => None
              end) tr.

(** Events a re-run can emit with RAG off. *)
Definition plain_event (ev : event) : Prop :=
  match ev with
  | EvLoadEmbedDocs _ _ | EvEmbed _ | EvQuery _ _ => False
  | _ => True
  end.

(** Events a re-run can emit outside a chat turn. *)
Definition idle_event (ev : event) : Prop :=
  match ev with
  | EvEmbed _ | EvQuery _ _ | EvStreamOutput _ _ => False
  | _ => True
  end.

Definition same_transcript : relation world :=
  λ w w', transcript (session_state w') = transcript (session_state w).

Definition same_model : relation world :=
  λ w w', session_state w' !! "model" = session_state w !! "model".

Definition keeps_model : relation world :=
  λ w w', is_Some (session_state w !! "model") →
          is_Some (session_state w' !! "model").

(** A computation leaves the transcript alone, or returns having appended
    records that satisfy [extra]. *)
Definition appends_at_most (extra : list dict → Prop) {A} (c : M A) : Prop :=
  ∀ w,
    transcript (session_state (c w).2) = transcript (session_state w) ∨
    (∃ a, (c w).1 = inr a) ∧
    ∃ added, extra added ∧
      transcript (session_state (c w).2) = transcript (session_state w) ++ added.

(** The two records of a turn on [prompt]. *)
Definition turn_records (prompt : string) (added : list dict) : Prop :=
  ∃ response,
    added = [chat_record "user" user_avatar prompt;
             chat_record "assistant" assistant_avatar response].

End PageShapes.

(** ** Strings *)

Lemma append_assoc (a b c : string) : (a +:+ b) +:+ c = a +:+ (b +:+ c).
Proof. induction a as [|x a IH]; [done|]. change (String x ((a +:+ b) +:+ c) = String x (a +:+ b +:+ c)). by f_equal. Qed.

Lemma append_nil_r (a : string) : a +:+ EmptyString = a.
Proof. induction a as [|x a IH]; [done|]. change (String x (a +:+ EmptyString) = String x a). by f_equal. Qed.

(** ** The script monad *)

Section Monad.
Context `{Ext : Externals}.

Lemma bind_inr {A B} (c : M A) (k : A → M B) w a w' :
  c w = (inr a, w') → (c ≫= k) w = k a w'.
Proof. intros H. unfold mbind, M_bind, bind. by rewrite H. Qed.

Lemma bind_inl {A B} (c : M A) (k : A → M B) w e w' :
  c w = (inl e, w') → (c ≫= k) w = (inl e, w').
Proof. intros H. unfold mbind, M_bind, bind. by rewrite H. Qed.

Lemma bind_assoc {A B C} (c : M A) (f : A → M B) (g : B → M C) w :
  ((c ≫= f) ≫= g) w = (c ≫= λ a, f a ≫= g) w.
Proof. unfold mbind, M_bind, bind. by destruct (c w) as [[e|a] w']. Qed.

Lemma getitem_Some (d : dict) key v w :
  d !! key = Some v → getitem d key w = (inr v, w).
Proof. intros H. unfold getitem. by rewrite H. Qed.

Section Preserves.
Context (R : relation world) `{!PreOrder R}.

Lemma preserves_ret {A} (a : A) : preserves R (ret a).
Proof. intros w. done. Qed.

Lemma preserves_mret {A} (a : A) : preserves R (mret a).
Proof. intros w. done. Qed.

Lemma preserves_raise {A} e : preserves R (raise (A:=A) e).
Proof. intros w. done. Qed.

Lemma preserves_read_state : preserves R read_state.
Proof. intros w. done. Qed.

Lemma preserves_bind {A B} (c : M A) (k : A → M B) :
  preserves R c → (∀ a, preserves R (k a)) → preserves R (c ≫= k).
Proof.
  intros Hc Hk w. unfold mbind, M_bind, bind.
  specialize (Hc w). destruct (c w) as [[e|a] w']; [done|].
  etrans; [exact Hc|apply Hk].
Qed.

Lemma preserves_bind_at {A B} (c : M A) (k : A → M B) w :
  R w (c w).2 → (∀ a, preserves R (k a)) → R w ((c ≫= k) w).2.
Proof.
  intros Hc Hk. unfold mbind, M_bind, bind.
  destruct (c w) as [[e|a] w']; [done|].
  etrans; [exact Hc|apply Hk].
Qed.

Lemma preserves_getitem (d : dict) key : preserves R (getitem d key).
Proof. unfold getitem. destruct (d !! key); [apply preserves_ret|apply preserves_raise]. Qed.

Lemma preserves_for_each {A} (l : list A) body :
  (∀ a, preserves R (body a)) → preserves R (for_each l body).
Proof.
  intros Hb. induction l as [|a l IH]; simpl.
  - apply preserves_ret.
  - apply preserves_bind; [apply Hb|done].
Qed.

Lemma preserves_comprehension {A B} (f : A → M B) l :
  (∀ a, preserves R (f a)) → preserves R (comprehension f l).
Proof.
  intros Hf. induction l as [|a l IH]; simpl.
  - apply preserves_ret.
  - apply preserves_bind; [apply Hf|]. intros b.
    apply preserves_bind; [done|]. intros bs. apply preserves_ret.
Qed.

Lemma preserves_prompt_loop messages acc : preserves R (prompt_loop messages acc).
Proof.
  revert acc. induction messages as [|m messages IH]; intros acc; simpl.
  - apply preserves_ret.
  - apply preserves_bind; [apply preserves_getitem|]. intros role.
    apply preserves_bind; [apply preserves_getitem|]. intros content. apply IH.
Qed.

Lemma preserves_messages_to_llama3_prompt messages :
  preserves R (messages_to_llama3_prompt messages).
Proof.
  apply preserves_bind; [apply preserves_prompt_loop|]. intros s. apply preserves_ret.
Qed.

Lemma preserves_retrieved_data ret_ : preserves R (retrieved_data ret_).
Proof.
  unfold retrieved_data.
  destruct (documents ret_), (metadatas ret_); try apply preserves_ret.
  apply preserves_comprehension. intros [doc [|first rest]].
  - apply preserves_raise.
  - apply preserves_bind; [apply preserves_getitem|]. intros fn. apply preserves_ret.
Qed.

End Preserves.
End Monad.


(** ** Walking the script with a relation

    [R] relates the world before and after; [K] are the events whose
    emission [R] tolerates. *)

Section Frame.
Context `{Ext : Externals}.
Context (R : relation world) `{!PreOrder R} (K : event → Prop).
Hypothesis R_emit : ∀ ev, K ev → preserves R (emit ev).
Hypothesis R_model : ∀ m, preserves R (setitem "model" (VModel m)).
Hypothesis R_init : ∀ w,
  session_state w !! "messages" = None →
  R w (World (<["messages" := VMessages []]> (session_state w)) (trace w)).
Hypothesis R_iadd : ∀ prompt response w l,
  session_state w !! "messages" = Some (VMessages l) →
  R w (World
         (<["messages" :=
              VMessages (l ++ [chat_record "user" user_avatar prompt;
                               chat_record "assistant" assistant_avatar response])]>
            (session_state w))
         (trace w)).

Lemma frame_getattr_messages : preserves R getattr_messages.
Proof.
  intros w. unfold getattr_messages, mbind, M_bind, bind, read_state.
  by destruct (session_state w !! "messages") as [[]|].
Qed.

Lemma frame_getitem_model : preserves R getitem_model.
Proof.
  intros w. unfold getitem_model, mbind, M_bind, bind, read_state.
  by destruct (session_state w !! "model") as [[]|].
Qed.

Ltac frame :=
  first
    [ apply (preserves_ret R)
    | apply (preserves_mret R)
    | apply (preserves_raise R)
    | apply (preserves_getitem R)
    | apply (preserves_read_state R)
    | apply R_emit; solve [auto]
    | apply R_model
    | apply frame_getattr_messages
    | apply frame_getitem_model
    | apply (preserves_messages_to_llama3_prompt R)
    | apply (preserves_retrieved_data R)
    | apply (preserves_bind R); [|intros ?] ].

Lemma frame_model_controls inp :
  (∀ r f, K (EvDownload r f)) → (∀ c, K (EvStartLlama3 c)) →
  preserves R (model_controls inp).
Proof.
  intros K1 K2. unfold model_controls, model_name_getitem, start_llama3.
  destruct (selectbox _ _) as [e|]; [|repeat frame].
  destruct (model_name !! e) as [file|]; [|repeat frame].
  apply (preserves_bind R); [frame|]. intros [e' file'].
  apply (preserves_bind R); [frame|]. intros _.
  destruct (in_button inp); repeat frame.
Qed.

Lemma frame_rag_controls inp :
  (∀ d fs, K (EvLoadEmbedDocs d fs)) → preserves R (rag_controls inp).
Proof.
  intros K1. unfold rag_controls. destruct (in_rag inp); [|frame].
  apply (preserves_bind R); [frame|]. intros _.
  destruct (load_embed_docs _ _). frame.
Qed.

Lemma frame_show_history :
  (∀ r a, K (EvChatMessage r a)) → (∀ b, K (EvMarkdown b)) →
  preserves R show_history.
Proof.
  intros K1 K2 w. unfold show_history.
  rewrite (bind_inr read_state _ w (session_state w) w) by done.
  apply (preserves_bind_at R).
  - destruct (session_state w !! "messages") as [v|] eqn:Hm; [done|].
    by apply R_init.
  - intros _. apply (preserves_bind R); [frame|]. intros l.
    apply (preserves_for_each R). intros m. repeat frame.
Qed.

Lemma frame_user_message rag prompt :
  (∀ t, K (EvEmbed t)) → (∀ e k, K (EvQuery e k)) →
  preserves R (user_message rag prompt).
Proof.
  intros K1 K2. unfold user_message. destruct rag as [rc|]; [|frame].
  apply (preserves_bind R); [frame|]. intros _.
  destruct (embed _ _); repeat frame.
Qed.

Lemma frame_iadd prompt response :
  preserves R
    (history ← getattr_messages;
     setitem "messages"
       (VMessages (history ++ [chat_record "user" user_avatar prompt;
                               chat_record "assistant" assistant_avatar response]))).
Proof.
  intros w. unfold getattr_messages, mbind, M_bind, bind, read_state.
  destruct (session_state w !! "messages") as [[m|l]|] eqn:Hl; simpl; [done| |done].
  by apply R_iadd.
Qed.

Lemma frame_reply messages prompt :
  (∀ r a, K (EvChatMessage r a)) → (∀ b, K (EvMarkdown b)) →
  (∀ m p, K (EvStreamOutput m p)) →
  preserves R (reply messages prompt).
Proof.
  intros K1 K2 K3. unfold reply.
  do 5 (apply (preserves_bind R); [frame|]; intros ?).
  apply (preserves_bind R); [frame|]. intros _.
  apply frame_iadd.
Qed.

Lemma frame_chat_turn system_prompt rag prompt :
  (∀ ev, turn_event ev → K ev) → preserves R (chat_turn system_prompt rag prompt).
Proof.
  intros HK. unfold chat_turn.
  apply (preserves_bind R); [frame|]. intros history.
  apply (preserves_bind R).
  { apply (preserves_comprehension R). intros m. repeat frame. }
  intros copied.
  apply (preserves_bind R).
  { apply frame_user_message; intros; by apply HK. }
  intros message. apply frame_reply; intros; by apply HK.
Qed.

Lemma frame_chat inp system_prompt rag :
  (∀ ev, turn_event ev → K ev) → (∀ d, K (EvChatInput d)) →
  preserves R (chat inp system_prompt rag).
Proof.
  intros HK Hin. unfold chat.
  apply (preserves_bind R); [frame|]. intros ss.
  apply (preserves_bind R); [frame|]. intros _.
  destruct (truthy _); [by apply frame_chat_turn|frame].
Qed.

Lemma frame_script inp : (∀ ev, K ev) → preserves R (script inp).
Proof.
  intros HK. unfold script.
  apply (preserves_bind R); [by apply frame_model_controls|]. intros _.
  apply (preserves_bind R); [by apply frame_rag_controls|]. intros [system_prompt rag].
  apply (preserves_bind R); [by apply frame_show_history|]. intros _.
  apply frame_chat; auto.
Qed.

End Frame.

(** ** The transcript only grows *)

Section Transcript.
Context `{Ext : Externals}.

#[global] Instance extends_preorder : PreOrder extends.
Proof.
  split.
  - intros w. unfold extends. done.
  - intros w1 w2 w3 H12 H23. unfold extends in *. by etrans.
Qed.

Lemma transcript_insert_model ss v :
  transcript (<["model" := v]> ss) = transcript ss.
Proof. unfold transcript. by rewrite lookup_insert_ne. Qed.

Lemma transcript_insert_messages ss l :
  transcript (<["messages" := VMessages l]> ss) = l.
Proof. unfold transcript. by rewrite lookup_insert_eq. Qed.

Lemma extends_script inp : preserves extends (script inp).
Proof.
  apply (frame_script extends (λ _, True)); [| | | |done].
  - intros ev _ w. unfold extends. done.
  - intros m w. unfold extends. simpl. by rewrite transcript_insert_model.
  - intros w Hm. unfold extends. simpl. rewrite transcript_insert_messages.
    unfold transcript. by rewrite Hm.
  - intros prompt response w l Hl. unfold extends. simpl.
    rewrite transcript_insert_messages. unfold transcript. rewrite Hl.
    by apply prefix_app_r.
Qed.

Lemma state_after_extends inp ss :
  transcript ss `prefix_of` transcript (state_after inp ss).
Proof. exact (extends_script inp (World ss [])). Qed.

Lemma reruns_extends inps ss :
  transcript ss `prefix_of` transcript (reruns ss inps).
Proof.
  revert ss. induction inps as [|inp inps IH]; intros ss; simpl; [done|].
  etrans; [apply state_after_extends|apply IH].
Qed.

End Transcript.

(** ** Well-formed session states *)

Section WellFormed.
Context `{Ext : Externals}.

#[global] Instance keeps_wf_preorder : PreOrder keeps_wf.
Proof.
  split.
  - intros w. unfold keeps_wf. done.
  - intros w1 w2 w3 H12 H23. unfold keeps_wf in *. auto.
Qed.

Lemma chat_record_dom role avatar content :
  dom (chat_record role avatar content) = {["role"; "avatar"; "content"]}.
Proof. unfold chat_record. rewrite !dom_insert_L. set_solver. Qed.

Lemma chat_record_role role avatar content :
  chat_record role avatar content !! "role" = Some role.
Proof. unfold chat_record. by rewrite lookup_insert_eq. Qed.

Lemma chat_record_avatar role avatar content :
  chat_record role avatar content !! "avatar" = Some avatar.
Proof. unfold chat_record. rewrite lookup_insert_ne by done. by rewrite lookup_insert_eq. Qed.

Lemma chat_record_content role avatar content :
  chat_record role avatar content !! "content" = Some content.
Proof. unfold chat_record. rewrite !lookup_insert_ne by done. by rewrite lookup_insert_eq. Qed.

Lemma chat_record_wf role avatar content :
  role ∈ chat_roles → wf_record (chat_record role avatar content).
Proof.
  intros Hr. split; [apply chat_record_dom|].
  exists role. by rewrite chat_record_role.
Qed.

Lemma wf_state_empty : wf_state ∅.
Proof. split; intros v; by rewrite lookup_empty. Qed.

Lemma wf_state_insert_model ss m :
  wf_state ss → wf_state (<["model" := VModel m]> ss).
Proof.
  intros [Hmsg Hmod]. split; intros v.
  - rewrite lookup_insert_ne by done. apply Hmsg.
  - rewrite lookup_insert_eq. intros [= <-]. by exists m.
Qed.

Lemma wf_state_insert_messages ss l :
  wf_state ss → Forall wf_record l → wf_state (<["messages" := VMessages l]> ss).
Proof.
  intros [Hmsg Hmod] Hl. split; intros v.
  - rewrite lookup_insert_eq. intros [= <-]. by exists l.
  - rewrite lookup_insert_ne by done. apply Hmod.
Qed.

Lemma wf_state_transcript ss : wf_state ss → Forall wf_record (transcript ss).
Proof.
  intros [Hmsg _]. unfold transcript.
  destruct (ss !! "messages") as [v|] eqn:Hv; [|done].
  destruct (Hmsg v eq_refl) as (l & -> & Hl). done.
Qed.

Lemma keeps_wf_script inp : preserves keeps_wf (script inp).
Proof.
  apply (frame_script keeps_wf (λ _, True)); [| | | |done].
  - intros ev _ w. unfold keeps_wf. done.
  - intros m w. unfold keeps_wf. simpl. apply wf_state_insert_model.
  - intros w Hm Hwf. simpl. by apply wf_state_insert_messages.
  - intros prompt response w l Hl Hwf. simpl.
    apply wf_state_insert_messages; [done|].
    apply Forall_app. split.
    + apply wf_state_transcript in Hwf. unfold transcript in Hwf. by rewrite Hl in Hwf.
    + repeat constructor; apply chat_record_wf; unfold chat_roles; set_solver.
Qed.

Lemma state_after_wf inp ss : wf_state ss → wf_state (state_after inp ss).
Proof. exact (keeps_wf_script inp (World ss [])). Qed.

Lemma reruns_wf inps ss : wf_state ss → wf_state (reruns ss inps).
Proof.
  revert ss. induction inps as [|inp inps IH]; intros ss Hwf; simpl; [done|].
  by apply IH, state_after_wf.
Qed.

Lemma session_wf inps : wf_state (session inps).
Proof. apply reruns_wf, wf_state_empty. Qed.

(** C4: after any sequence of re-runs of a browser session, every record of
    the transcript has exactly the three fields role, avatar and content,
    and its role is one of system, user and assistant. *)
Theorem transcript_records_well_formed (inps : list Inputs) :
  Forall wf_record (transcript (session inps)).
Proof. apply wf_state_transcript, session_wf. Qed.

End WellFormed.

(** ** Phases that leave a projection of the trace alone *)

Section Silent.
Context `{Ext : Externals} {B : Type} (sel : event → option B).

#[global] Instance same_on_preorder : PreOrder (same_on sel).
Proof.
  split.
  - intros w. unfold same_on. done.
  - intros w1 w2 w3 H12 H23. unfold same_on in *. congruence.
Qed.

Lemma same_on_emit ev : sel ev = None → preserves (same_on sel) (emit ev).
Proof.
  intros Hev w. unfold same_on. simpl. rewrite omap_app. simpl.
  rewrite Hev. by rewrite app_nil_r.
Qed.

Ltac silent_side :=
  first [ by apply same_on_emit | by intros; unfold same_on | done ].

Lemma silent_model_controls inp :
  (∀ r f, sel (EvDownload r f) = None) → (∀ c, sel (EvStartLlama3 c) = None) →
  preserves (same_on sel) (model_controls inp).
Proof.
  intros. apply (frame_model_controls (same_on sel) (λ ev, sel ev = None)); silent_side.
Qed.

Lemma silent_rag_controls inp :
  (∀ d fs, sel (EvLoadEmbedDocs d fs) = None) → preserves (same_on sel) (rag_controls inp).
Proof.
  intros. apply (frame_rag_controls (same_on sel) (λ ev, sel ev = None)); silent_side.
Qed.

Lemma silent_show_history :
  (∀ r a, sel (EvChatMessage r a) = None) → (∀ b, sel (EvMarkdown b) = None) →
  preserves (same_on sel) show_history.
Proof.
  intros. apply (frame_show_history (same_on sel) (λ ev, sel ev = None)); silent_side.
Qed.


Lemma silent_user_message rag prompt :
  (∀ t, sel (EvEmbed t) = None) → (∀ e k, sel (EvQuery e k) = None) →
  preserves (same_on sel) (user_message rag prompt).
Proof.
  intros. apply (frame_user_message (same_on sel) (λ ev, sel ev = None)); silent_side.
Qed.

Lemma silent_chat_turn system_prompt rag prompt :
  (∀ ev, turn_event ev → sel ev = None) →
  preserves (same_on sel) (chat_turn system_prompt rag prompt).
Proof.
  intros. apply (frame_chat_turn (same_on sel) (λ ev, sel ev = None)); silent_side.
Qed.

Lemma silent_chat inp system_prompt rag :
  (∀ ev, turn_event ev → sel ev = None) → (∀ d, sel (EvChatInput d) = None) →
  preserves (same_on sel) (chat inp system_prompt rag).
Proof.
  intros. apply (frame_chat (same_on sel) (λ ev, sel ev = None)); silent_side.
Qed.

End Silent.

(** ** Running the phases *)

Section Runs.
Context `{Ext : Externals}.

Lemma model_name_options e :
  e ∈ encoding_options → is_Some (model_name !! e).
Proof.
  unfold encoding_options. rewrite !elem_of_cons, elem_of_nil.
  intros [->|[->|[->|[]]]]; by eexists.
Qed.

Lemma selectbox_elem {A} (options : list A) index a :
  selectbox options index = Some a → a ∈ options.
Proof. unfold selectbox. apply list_elem_of_lookup_2. Qed.

Lemma selectbox_in_range {A} (options : list A) index :
  (index < length options)%nat → is_Some (selectbox options index).
Proof. unfold selectbox. apply lookup_lt_is_Some_2. Qed.

Lemma model_controls_run inp w :
  (in_encoding inp < length encoding_options)%nat →
  ∃ w', model_controls inp w = (inr tt, w') ∧
    if in_button inp
    then ∃ m, session_state w' = <["model" := VModel m]> (session_state w)
    else session_state w' = session_state w.
Proof.
  intros Hi. unfold model_controls, model_name_getitem.
  destruct (selectbox_in_range _ _ Hi) as [e He]. rewrite He.
  destruct (model_name_options e (selectbox_elem _ _ _ He)) as [file ->].
  unfold start_llama3, mbind, M_bind, bind, ret, emit, setitem. simpl.
  destruct (in_button inp); simpl; eauto.
Qed.

Lemma rag_controls_run inp w :
  rag_controls inp w =
    (inr (system_prompt_of inp, rag_of inp),
     World (session_state w)
       (trace w ++ if in_rag inp
                   then [EvLoadEmbedDocs (rag_directory_of inp)
                           (files_observed (rag_directory_of inp))]
                   else [])).
Proof.
  unfold rag_controls, system_prompt_of, rag_of, rag_context_of.
  destruct (in_rag inp).
  - unfold mbind, M_bind, bind, emit. simpl. fold (rag_directory_of inp).
    by destruct (load_embed_docs _ _).
  - unfold ret. rewrite app_nil_r. by destruct w.
Qed.

Lemma getattr_messages_run w l :
  session_state w !! "messages" = Some (VMessages l) →
  getattr_messages w = (inr l, w).
Proof.
  intros Hl. unfold getattr_messages, mbind, M_bind, bind, read_state.
  by rewrite Hl.
Qed.

Lemma getitem_model_run w m :
  session_state w !! "model" = Some (VModel m) →
  getitem_model w = (inr m, w).
Proof.
  intros Hm. unfold getitem_model, mbind, M_bind, bind, read_state.
  by rewrite Hm.
Qed.

Lemma wf_record_fields d :
  wf_record d →
  is_Some (d !! "role") ∧ is_Some (d !! "avatar") ∧ is_Some (d !! "content").
Proof.
  intros [Hdom _]. rewrite <- !elem_of_dom. rewrite Hdom. clear Hdom. set_solver.
Qed.

Lemma display_run l w :
  Forall wf_record l →
  for_each l (λ message,
      role ← getitem message "role";
      avatar ← getitem message "avatar";
      emit (EvChatMessage role avatar);;
      content ← getitem message "content";
      emit (EvMarkdown content)) w
  = (inr tt, World (session_state w) (trace w ++ history_events l)).
Proof.
  intros Hl. revert w. induction Hl as [|d l Hd Hl IH]; intros w; simpl.
  - unfold ret. rewrite app_nil_r. by destruct w.
  - destruct (wf_record_fields d Hd) as ([r Hr] & [a Ha] & [c Hc]).
    erewrite bind_inr; last first.
    { erewrite bind_inr; [|by apply getitem_Some].
      erewrite bind_inr; [|by apply getitem_Some].
      erewrite bind_inr; [|reflexivity].
      erewrite bind_inr; [|by apply getitem_Some].
      reflexivity. }
    rewrite IH. simpl. rewrite Hr, Ha, Hc. simpl. by rewrite <- !app_assoc.
Qed.

Lemma show_history_run w :
  wf_state (session_state w) →
  ∃ tr, show_history w =
    (inr tt,
     World (<["messages" := VMessages (transcript (session_state w))]> (session_state w)) tr).
Proof.
  intros Hwf. pose proof (wf_state_transcript _ Hwf) as Hl.
  destruct Hwf as [Hmsg _]. unfold show_history.
  rewrite (bind_inr read_state _ w (session_state w) w) by done.
  unfold transcript in *.
  destruct (session_state w !! "messages") as [v|] eqn:Hv.
  - destruct (Hmsg v eq_refl) as (l & -> & _).
    rewrite (bind_inr (ret tt) _ w tt w) by done.
    rewrite (bind_inr _ _ _ _ _ (getattr_messages_run w l Hv)).
    rewrite display_run by done. rewrite insert_id by done. eauto.
  - erewrite bind_inr; [|reflexivity].
    erewrite bind_inr; [|apply getattr_messages_run; simpl; apply lookup_insert_eq].
    rewrite display_run by done. simpl. eauto.
Qed.

Lemma prompt_message_has_parts role content :
  has_parts (prompt_message role content) (role, content).
Proof.
  unfold has_parts, prompt_message. simpl. split.
  - by rewrite lookup_insert_eq.
  - rewrite lookup_insert_ne by done. by rewrite lookup_insert_eq.
Qed.

Lemma copy_history_run l w :
  Forall wf_record l →
  comprehension (λ m,
      role ← getitem m "role";
      content ← getitem m "content";
      ret (prompt_message role content)) l w
  = (inr (map (λ m, prompt_message (role_content m).1 (role_content m).2) l), w).
Proof.
  intros Hl. revert w. induction Hl as [|d l Hd Hl IH]; intros w; simpl; [done|].
  destruct (wf_record_fields d Hd) as ([r Hr] & _ & [c Hc]).
  erewrite bind_inr; last first.
  { erewrite bind_inr; [|by apply getitem_Some].
    erewrite bind_inr; [|by apply getitem_Some].
    reflexivity. }
  erewrite bind_inr; [|apply IH].
  unfold role_content. by rewrite Hr, Hc.
Qed.

Lemma prompt_loop_run messages parts acc w :
  Forall2 has_parts messages parts →
  prompt_loop messages acc w = (inr (acc +:+ blocks parts), w).
Proof.
  intros H. revert acc. induction H as [|m [role content] messages parts [Hr Hc] _ IH];
    intros acc; simpl.
  - by rewrite append_nil_r.
  - simpl in Hr, Hc.
    erewrite bind_inr; [|by apply getitem_Some].
    erewrite bind_inr; [|by apply getitem_Some].
    rewrite IH. unfold message_block. by rewrite !append_assoc.
Qed.

Lemma messages_to_llama3_prompt_run messages parts w :
  Forall2 has_parts messages parts →
  messages_to_llama3_prompt messages w = (inr (llama3_prompt_spec parts), w).
Proof.
  intros H. unfold messages_to_llama3_prompt.
  erewrite bind_inr; [|by apply prompt_loop_run].
  unfold llama3_prompt_spec. by rewrite append_assoc.
Qed.

Lemma reply_run messages parts prompt w m l :
  Forall2 has_parts messages parts →
  session_state w !! "model" = Some (VModel m) →
  session_state w !! "messages" = Some (VMessages l) →
  reply messages prompt w =
    (inr tt,
     World
       (<["messages" :=
            VMessages (l ++ [chat_record "user" user_avatar prompt;
                             chat_record "assistant" assistant_avatar
                               (stream_output m (llama3_prompt_spec parts))])]>
          (session_state w))
       (trace w ++ [EvChatMessage "user" user_avatar; EvMarkdown prompt;
                    EvChatMessage "assistant" assistant_avatar;
                    EvStreamOutput m (llama3_prompt_spec parts)])).
Proof.
  intros Hparts Hm Hl. unfold reply.
  erewrite bind_inr; [|reflexivity].
  erewrite bind_inr; [|reflexivity].
  erewrite bind_inr; [|by apply messages_to_llama3_prompt_run].
  erewrite bind_inr; [|reflexivity].
  erewrite bind_inr; [|by apply getitem_model_run].
  erewrite bind_inr; [|reflexivity].
  erewrite bind_inr; [|by apply getattr_messages_run].
  unfold setitem. simpl. by rewrite <- !app_assoc.
Qed.

Lemma retrieved_data_well_formed ret_ :
  well_formed_result ret_ → ∃ data, ∀ w, retrieved_data ret_ w = (inr data, w).
Proof.
  unfold well_formed_result, retrieved_data.
  destruct (documents ret_) as [docs|], (metadatas ret_) as [metas|];
    try (by exists []).
  induction 1 as [|[doc metadata] l (first & Hfirst & [fn Hfn]) _ [data IH]]; simpl.
  - by exists [].
  - destruct metadata as [|first' rest]; [done|]. simpl in Hfirst.
    injection Hfirst as ->.
    exists ((join (nl +:+ nl) doc, fn) :: data). intros w.
    erewrite bind_inr; last first.
    { erewrite bind_inr; [|by apply getitem_Some]. reflexivity. }
    erewrite bind_inr; [|apply IH]. done.
Qed.

Lemma retrieved_data_none ret_ w :
  documents ret_ = None ∨ metadatas ret_ = None →
  retrieved_data ret_ w = (inr [], w).
Proof.
  unfold retrieved_data. intros [->| ->]; [done|].
  by destruct (documents ret_).
Qed.

Lemma user_message_plain prompt w :
  user_message None prompt w = (inr (prompt_message "user" prompt), w).
Proof. done. Qed.

Lemma user_message_rag rc prompt e rest data w :
  embed (embedding_model rc) prompt = e :: rest →
  (∀ w, retrieved_data (collection_query (collection rc) e (n_result rc)) w
        = (inr data, w)) →
  user_message (Some rc) prompt w =
    (inr (prompt_message "user" (RAG_PROMPT_format prompt data)),
     World (session_state w) (trace w ++ [EvEmbed prompt; EvQuery e (n_result rc)])).
Proof.
  intros He Hdata. unfold user_message. rewrite He.
  erewrite bind_inr; [|reflexivity].
  erewrite bind_inr; [|reflexivity].
  erewrite bind_inr; [|apply Hdata].
  unfold ret. simpl. by rewrite <- !app_assoc.
Qed.

Lemma chat_turn_run system_prompt rag prompt content w w1 m l :
  session_state w !! "model" = Some (VModel m) →
  session_state w !! "messages" = Some (VMessages l) →
  Forall wf_record l →
  user_message rag prompt w = (inr (prompt_message "user" content), w1) →
  session_state w1 = session_state w →
  let prompt_string :=
    llama3_prompt_spec
      (("system", system_prompt) :: map role_content l ++ [("user", content)]) in
  chat_turn system_prompt rag prompt w =
    (inr tt,
     World
       (<["messages" :=
            VMessages (l ++ [chat_record "user" user_avatar prompt;
                             chat_record "assistant" assistant_avatar
                               (stream_output m prompt_string)])]>
          (session_state w))
       (trace w1 ++ [EvChatMessage "user" user_avatar; EvMarkdown prompt;
                     EvChatMessage "assistant" assistant_avatar;
                     EvStreamOutput m prompt_string])).
Proof.
  intros Hm Hl Hwf Hum Hss ps. unfold chat_turn.
  erewrite bind_inr; [|by apply getattr_messages_run].
  erewrite bind_inr; [|by apply copy_history_run].
  erewrite bind_inr; [|exact Hum].
  rewrite <- Hss in Hm, Hl |- *.
  apply reply_run; [|done..].
  constructor; [apply prompt_message_has_parts|].
  apply Forall2_app; [|repeat constructor; apply prompt_message_has_parts].
  clear -Hwf. induction Hwf as [|d l Hd _ IH]; cbn [map]; constructor; [|done].
  generalize (role_content d). intros [r c]. apply prompt_message_has_parts.
Qed.

(** The selectors behind the projections of the trace. *)
Lemma silent_before_chat {B} (sel : event → option B) inp ss ss' tr r :
  (∀ r f, sel (EvDownload r f) = None) → (∀ c, sel (EvStartLlama3 c) = None) →
  (∀ d fs, sel (EvLoadEmbedDocs d fs) = None) →
  (∀ r a, sel (EvChatMessage r a) = None) → (∀ b, sel (EvMarkdown b) = None) →
  (model_controls inp;; rag_controls inp;; show_history) (World ss [])
    = (r, World ss' tr) →
  omap sel tr = [].
Proof.
  intros K1 K2 K3 K4 K5 Hrun.
  assert (preserves (same_on sel) (model_controls inp;; rag_controls inp;; show_history)) as H.
  { apply (preserves_bind (same_on sel)); [by apply silent_model_controls|]. intros _.
    apply (preserves_bind (same_on sel)); [by apply silent_rag_controls|]. intros _.
    by apply silent_show_history. }
  specialize (H (World ss [])). rewrite Hrun in H. exact H.
Qed.

Lemma script_to_chat inp ss :
  (in_encoding inp < length encoding_options)%nat →
  wf_state ss →
  ∃ ss1 tr,
    script inp (World ss []) =
      chat inp (system_prompt_of inp) (rag_of inp)
        (World (<["messages" := VMessages (transcript ss)]> ss1) tr) ∧
    (if in_button inp then ∃ m, ss1 = <["model" := VModel m]> ss else ss1 = ss) ∧
    streamed tr = [] ∧ queries tr = [] ∧ chat_inputs tr = [].
Proof.
  intros Hi Hwf.
  destruct (model_controls_run inp (World ss []) Hi) as (w1 & Hrun1 & Hss1).
  simpl in Hss1.
  assert (wf_state (session_state w1) ∧
          transcript (session_state w1) = transcript ss) as [Hwf1 Htr1].
  { destruct (in_button inp).
    - destruct Hss1 as [m ->]. split; [by apply wf_state_insert_model|].
      apply transcript_insert_model.
    - by rewrite Hss1. }
  pose proof (rag_controls_run inp w1) as Hrun2.
  destruct (show_history_run
              (World (session_state w1)
                 (trace w1 ++ if in_rag inp
                              then [EvLoadEmbedDocs (rag_directory_of inp)
                                      (files_observed (rag_directory_of inp))]
                              else [])) Hwf1) as (tr & Hrun3).
  simpl in Hrun3. rewrite Htr1 in Hrun3.
  exists (session_state w1), tr. split; [|split; [exact Hss1|]].
  - unfold script.
    erewrite bind_inr; [|exact Hrun1].
    rewrite (bind_inr (rag_controls inp) _ w1 _ _ Hrun2).
    erewrite bind_inr; [|exact Hrun3]. done.
  - assert ((model_controls inp;; rag_controls inp;; show_history) (World ss [])
            = (inr tt, World (<["messages" := VMessages (transcript ss)]> (session_state w1)) tr))
      as Hrun.
    { erewrite bind_inr; [|exact Hrun1].
      erewrite bind_inr; [|exact Hrun2]. exact Hrun3. }
    unfold streamed, queries, chat_inputs.
    split; [|split]; (eapply silent_before_chat; [..|exact Hrun]; done).
Qed.

Lemma model_available inp ss ss1 :
  wf_state ss →
  in_button inp = true ∨ is_Some (ss !! "model") →
  (if in_button inp then ∃ m, ss1 = <["model" := VModel m]> ss else ss1 = ss) →
  ∃ m, ss1 !! "model" = Some (VModel m).
Proof.
  intros [_ Hmod] Hor Hss1. destruct (in_button inp).
  - destruct Hss1 as [m ->]. exists m. apply lookup_insert_eq.
  - subst ss1. destruct Hor as [?|[v Hv]]; [done|].
    destruct (Hmod v Hv) as [m ->]. by exists m.
Qed.

Lemma truthy_chat_input prompt :
  prompt ≠ EmptyString → truthy (chat_input false (Some prompt)) = Some prompt.
Proof. intros Hne. simpl. by destruct (decide (prompt = EmptyString)). Qed.

(** A turn whose message for the model can be built runs to its end. *)
Lemma turn_run inp ss prompt content :
  (in_encoding inp < length encoding_options)%nat →
  wf_state ss →
  in_chat inp = Some prompt → prompt ≠ EmptyString →
  in_button inp = true ∨ is_Some (ss !! "model") →
  (∀ w, ∃ tr, user_message (rag_of inp) prompt w =
                (inr (prompt_message "user" content), World (session_state w) tr)) →
  let prompt_string :=
    llama3_prompt_spec
      (("system", system_prompt_of inp)
         :: map role_content (transcript ss) ++ [("user", content)]) in
  ∃ m ss' tr,
    rerun inp ss = (inr tt, World ss' tr) ∧
    transcript ss' =
      transcript ss ++ [chat_record "user" user_avatar prompt;
                        chat_record "assistant" assistant_avatar
                          (stream_output m prompt_string)] ∧
    streamed tr = [(m, prompt_string)].
Proof.
  intros Hi Hwf Hchat Hne Hmodel Hum ps.
  destruct (script_to_chat inp ss Hi Hwf) as (ss1 & tr1 & Hrun & Hss1 & Hstr & _ & _).
  destruct (model_available inp ss ss1 Hwf Hmodel Hss1) as [m Hm].
  set (ss3 := <["messages" := VMessages (transcript ss)]> ss1) in *.
  assert (ss3 !! "model" = Some (VModel m)) as Hm3.
  { unfold ss3. by rewrite lookup_insert_ne. }
  assert (ss3 !! "messages" = Some (VMessages (transcript ss))) as Hl3.
  { unfold ss3. by rewrite lookup_insert_eq. }
  set (w4 := World ss3 (tr1 ++ [EvChatInput false])).
  destruct (Hum w4) as [tr4 Hum4].
  assert (streamed tr4 = []) as Hstr4.
  { pose proof (silent_user_message
                  (λ ev, match ev with EvStreamOutput m p => Some (m, p) | _ => None end)
                  (rag_of inp) prompt ltac:(done) ltac:(done) w4) as Hs.
    rewrite Hum4 in Hs. unfold same_on in Hs. simpl in Hs.
    unfold streamed. rewrite Hs, omap_app. fold (streamed tr1). by rewrite Hstr. }
  exists m. eexists _, _. split; [|split].
  - unfold rerun. rewrite Hrun. unfold chat.
    erewrite bind_inr; [|reflexivity]. simpl session_state.
    unfold disable_chat. rewrite Hm3.
    erewrite bind_inr; [|reflexivity].
    rewrite Hchat, truthy_chat_input by done.
    eapply (chat_turn_run _ _ _ content w4 _ m (transcript ss)); try done.
    by apply wf_state_transcript.
  - rewrite transcript_insert_messages. done.
  - unfold streamed in *. cbn [trace]. rewrite omap_app, Hstr4. done.
Qed.

End Runs.

(** ** The claims *)

Section Claims.
Context `{Ext : Externals}.

Lemma user_message_ok inp prompt :
  retrieval_ok inp prompt →
  ∃ content, ∀ w, ∃ tr,
    user_message (rag_of inp) prompt w =
      (inr (prompt_message "user" content), World (session_state w) tr).
Proof.
  unfold retrieval_ok. destruct (rag_of inp) as [rc|].
  - intros (e & rest & He & Hwf).
    destruct (retrieved_data_well_formed _ Hwf) as [data Hdata].
    exists (RAG_PROMPT_format prompt data). intros w. eexists.
    by apply (user_message_rag rc prompt e rest data).
  - intros _. exists prompt. intros w. exists (trace w).
    rewrite user_message_plain. by destruct w.
Qed.

(** C1, as amended: across any sequence of re-runs of the page, from any
    session state, the transcript afterwards is the transcript before
    followed by new records, so that no record already in it is changed,
    moved or dropped; and a user turn whose retrieval step goes through does
    add records at the end. *)
Theorem transcript_append_only (ss : gmap string value) (inps : list Inputs)
    (inp : Inputs) (prompt : string) :
  (∃ added, transcript (reruns ss inps) = transcript ss ++ added) ∧
  ((in_encoding inp < length encoding_options)%nat →
   in_chat inp = Some prompt → prompt ≠ EmptyString →
   in_button inp = true ∨ is_Some (session inps !! "model") →
   retrieval_ok inp prompt →
   ∃ added, added ≠ [] ∧
     transcript (state_after inp (session inps))
     = transcript (session inps) ++ added).
Proof.
  split.
  - destruct (reruns_extends inps ss) as [added ->]. by exists added.
  - intros Hi Hchat Hne Hmodel Hret.
    destruct (user_message_ok inp prompt Hret) as [content Hum].
    destruct (turn_run inp (session inps) prompt content Hi (session_wf inps)
                Hchat Hne Hmodel Hum) as (m & ss' & tr & Hrun & Htr & _).
    eexists. split; [|unfold state_after; rewrite Hrun; exact Htr]. done.
Qed.

(** C2, as amended: a prompt submitted while a model is in the session
    state (started
    earlier, or by the button in this very re-run) makes the re-run complete
    and append exactly two records: the user record with the typed prompt,
    then the assistant record with the response of the one [stream_output]
    call of the re-run, provided the retrieval step of the turn goes
    through, as it always does with RAG off. *)
Theorem user_turn_appends_two (inps : list Inputs) (inp : Inputs) (prompt : string) :
  (in_encoding inp < length encoding_options)%nat →
  in_chat inp = Some prompt → prompt ≠ EmptyString →
  in_button inp = true ∨ is_Some (session inps !! "model") →
  retrieval_ok inp prompt →
  ∃ model prompt_string,
    (rerun inp (session inps)).1 = inr tt ∧
    streamed (trace (rerun inp (session inps)).2) = [(model, prompt_string)] ∧
    transcript (state_after inp (session inps)) =
      transcript (session inps)
        ++ [chat_record "user" user_avatar prompt;
            chat_record "assistant" assistant_avatar
              (stream_output model prompt_string)].
Proof.
  intros Hi Hchat Hne Hmodel Hret.
  destruct (user_message_ok inp prompt Hret) as [content Hum].
  destruct (turn_run inp (session inps) prompt content Hi (session_wf inps)
              Hchat Hne Hmodel Hum) as (m & ss' & tr & Hrun & Htr & Hstr).
  exists m. eexists. unfold state_after. rewrite Hrun. simpl. eauto.
Qed.

(** C3: the chat box is disabled exactly when the key "model" is absent
    from the session state; with a model there, what is typed reaches the
    script; and the box a re-run displays is disabled exactly when no model
    was in the session state before and the start button is not pressed. *)
Theorem chat_disabled_iff_no_model (inps : list Inputs) (inp : Inputs) :
  (∀ ss : gmap string value, disable_chat ss = true ↔ ss !! "model" = None) ∧
  (∀ (ss : gmap string value) ui,
     is_Some (ss !! "model") → chat_input (disable_chat ss) ui = ui) ∧
  ((in_encoding inp < length encoding_options)%nat →
   chat_inputs (trace (rerun inp (session inps)).2)
   = [negb (in_button inp) && disable_chat (session inps)]).
Proof.
  split; [|split].
  - intros ss. unfold disable_chat. by destruct (ss !! "model").
  - intros ss ui [v Hv]. unfold disable_chat. by rewrite Hv.
  - intros Hi.
    destruct (script_to_chat inp (session inps) Hi (session_wf inps))
      as (ss1 & tr1 & Hrun & Hss1 & _ & _ & Hin).
    unfold rerun. rewrite Hrun. unfold chat.
    erewrite bind_inr; [|reflexivity]. simpl session_state.
    erewrite bind_inr; [|reflexivity].
    assert (disable_chat (<["messages" := VMessages (transcript (session inps))]> ss1)
            = negb (in_button inp) && disable_chat (session inps)) as ->.
    { unfold disable_chat. rewrite lookup_insert_ne by done.
      destruct (in_button inp); simpl.
      - destruct Hss1 as [m ->]. by rewrite lookup_insert_eq.
      - by rewrite Hss1. }
    set (flag := negb (in_button inp) && disable_chat (session inps)).
    set (w4 := World (<["messages" := VMessages (transcript (session inps))]> ss1)
                 (tr1 ++ [EvChatInput flag])).
    assert (preserves
              (same_on (λ ev, match ev with EvChatInput d => Some d | _ => None end))
              (match truthy (chat_input flag (in_chat inp)) with
               | Some prompt => chat_turn (system_prompt_of inp) (rag_of inp) prompt
               | None => ret tt
               end)) as Hs.
    { destruct (truthy _).
      - apply silent_chat_turn. by intros [].
      - apply (preserves_ret (same_on _)). }
    specialize (Hs w4). unfold same_on in Hs. unfold chat_inputs in *.
    cbn [session_state trace]. fold flag. fold w4.
    rewrite Hs. unfold w4. cbn [trace]. rewrite omap_app, Hin. done.
Qed.

(** C5, as amended: with RAG ticked, a re-run hands [load_embed_docs]
    exactly once the directory and, of the names the directory listing
    returns, those that [os.path.isfile] accepts, in listing order. *)
Theorem indexer_gets_the_files (inp : Inputs) (ss : gmap string value) :
  (in_encoding inp < length encoding_options)%nat →
  in_rag inp = true →
  let dir := rag_directory_of inp in
  indexed (trace (rerun inp ss).2) = [(dir, files_observed dir)] ∧
  files_observed dir =
    List.filter (λ f, os_path_isfile (os_path_join dir f)) (os_listdir dir) ∧
  ∀ f, f ∈ files_observed dir ↔
       f ∈ os_listdir dir ∧ os_path_isfile (os_path_join dir f) = true.
Proof.
  intros Hi Hrag dir. split; [|split; [done|]].
  - destruct (model_controls_run inp (World ss []) Hi) as (w1 & Hrun1 & _).
    pose proof (silent_model_controls
                  (λ ev, match ev with EvLoadEmbedDocs d fs => Some (d, fs) | _ => None end)
                  inp ltac:(done) ltac:(done) (World ss [])) as Hs1.
    rewrite Hrun1 in Hs1. unfold same_on in Hs1. simpl in Hs1.
    unfold rerun, script.
    erewrite bind_inr; [|exact Hrun1].
    rewrite (bind_inr (rag_controls inp) _ w1 _ _ (rag_controls_run inp w1)).
    rewrite Hrag.
    set (w2 := World (session_state w1) (trace w1 ++ [EvLoadEmbedDocs _ _])).
    assert (preserves
              (same_on (λ ev, match ev with
                              | EvLoadEmbedDocs d fs => Some (d, fs) | _ => None end))
              (show_history;; chat inp (system_prompt_of inp) (rag_of inp))) as Hs.
    { apply (preserves_bind (same_on _)); [by apply silent_show_history|]. intros _.
      apply silent_chat; [by intros []|done]. }
    specialize (Hs w2). unfold same_on in Hs. unfold indexed.
    rewrite Hs. unfold w2. cbn [trace]. rewrite omap_app, Hs1. done.
  - intros f. unfold files_observed.
    rewrite !list_elem_of_In, filter_In. done.
Qed.


(** C7: the selectbox hands the script one of the three encodings it
    offers, the table of weight files has an entry for it, and the lookup
    of line 102 returns that entry without raising. *)
Theorem encoding_lookup_never_fails (inp : Inputs) (w : world) :
  (in_encoding inp < length encoding_options)%nat →
  ∃ e file,
    selectbox encoding_options (in_encoding inp) = Some e ∧
    e ∈ encoding_options ∧
    model_name !! e = Some file ∧
    model_name_getitem (selectbox encoding_options (in_encoding inp)) w
      = (inr (e, file), w).
Proof.
  intros Hi. destruct (selectbox_in_range _ _ Hi) as [e He].
  pose proof (selectbox_elem _ _ _ He) as Hin.
  destruct (model_name_options e Hin) as [file Hfile].
  exists e, file. rewrite He. unfold model_name_getitem. by rewrite Hfile.
Qed.

(** C8: on messages that each carry a role and a content,
    [messages_to_llama3_prompt] returns, whatever the session state and
    without touching it, the begin marker, one block per message in list
    order, and the assistant header. *)
Theorem messages_to_llama3_prompt_correct (messages : list dict)
    (parts : list (string * string)) (w : world) :
  Forall2 has_parts messages parts →
  messages_to_llama3_prompt messages w = (inr (llama3_prompt_spec parts), w).
Proof. apply messages_to_llama3_prompt_run. Qed.

(** C9: with RAG ticked, the model is sent the prompt rewritten by the RAG
    template over the retrieved data, while the user record appended to the
    transcript holds the prompt as typed. *)
Theorem rag_leaves_transcript_prompt (inps : list Inputs) (inp : Inputs)
    (prompt : string) (e : Embedding) (rest : list Embedding) :
  (in_encoding inp < length encoding_options)%nat →
  in_chat inp = Some prompt → prompt ≠ EmptyString →
  in_button inp = true ∨ is_Some (session inps !! "model") →
  in_rag inp = true →
  embed (embedding_model (rag_context_of inp)) prompt = e :: rest →
  well_formed_result
    (collection_query (collection (rag_context_of inp)) e
       (n_result (rag_context_of inp))) →
  ∃ model data,
    let prompt_string :=
      llama3_prompt_spec
        (("system", system_prompt_of inp)
           :: map role_content (transcript (session inps))
           ++ [("user", RAG_PROMPT_format prompt data)]) in
    streamed (trace (rerun inp (session inps)).2) = [(model, prompt_string)] ∧
    transcript (state_after inp (session inps)) =
      transcript (session inps)
        ++ [chat_record "user" user_avatar prompt;
            chat_record "assistant" assistant_avatar
              (stream_output model prompt_string)] ∧
    chat_record "user" user_avatar prompt !! "content" = Some prompt.
Proof.
  intros Hi Hchat Hne Hmodel Hrag He Hwf.
  destruct (retrieved_data_well_formed _ Hwf) as [data Hdata].
  destruct (turn_run inp (session inps) prompt (RAG_PROMPT_format prompt data)
              Hi (session_wf inps) Hchat Hne Hmodel)
    as (m & ss' & tr & Hrun & Htr & Hstr).
  { intros w. eexists. unfold rag_of. rewrite Hrag.
    by apply (user_message_rag _ prompt e rest data). }
  exists m, data. unfold state_after. rewrite Hrun. simpl.
  split; [done|]. split; [done|]. apply chat_record_content.
Qed.

(** C10: when the collection answers with no documents or no metadatas, the
    turn still completes: nothing is retrieved and the model is sent the
    RAG template filled with the prompt and an empty data list. *)
Theorem rag_turn_survives_none (inps : list Inputs) (inp : Inputs)
    (prompt : string) (e : Embedding) (rest : list Embedding) :
  (in_encoding inp < length encoding_options)%nat →
  in_chat inp = Some prompt → prompt ≠ EmptyString →
  in_button inp = true ∨ is_Some (session inps !! "model") →
  in_rag inp = true →
  embed (embedding_model (rag_context_of inp)) prompt = e :: rest →
  let ret_ := collection_query (collection (rag_context_of inp)) e
                (n_result (rag_context_of inp)) in
  documents ret_ = None ∨ metadatas ret_ = None →
  (∀ w, retrieved_data ret_ w = (inr [], w)) ∧
  (rerun inp (session inps)).1 = inr tt ∧
  ∃ model,
    streamed (trace (rerun inp (session inps)).2)
    = [(model,
        llama3_prompt_spec
          (("system", system_prompt_of inp)
             :: map role_content (transcript (session inps))
             ++ [("user", RAG_PROMPT_format prompt [])]))].
Proof.
  intros Hi Hchat Hne Hmodel Hrag He ret_ Hnone.
  assert (∀ w, retrieved_data ret_ w = (inr [], w)) as Hdata.
  { intros w. by apply retrieved_data_none. }
  split; [done|].
  destruct (turn_run inp (session inps) prompt (RAG_PROMPT_format prompt [])
              Hi (session_wf inps) Hchat Hne Hmodel)
    as (m & ss' & tr & Hrun & Htr & Hstr).
  { intros w. eexists. unfold rag_of. rewrite Hrag.
    by apply (user_message_rag _ prompt e rest []). }
  rewrite Hrun. simpl. eauto.
Qed.

End Claims.

(** ** The page at work on the small installation *)

Section Installed.
#[local] Existing Instance installation.

Example prompt_of_two_messages :
  messages_to_llama3_prompt
    [prompt_message "system" "Be brief."; prompt_message "user" "Hi"]
    (World ∅ [])
  = (inr ("<|begin_of_text|><|start_header_id|>system<|end_header_id|>" +:+ nl +:+ nl
          +:+ "Be brief.<|eot_id|>" +:+ nl
          +:+ "<|start_header_id|>user<|end_header_id|>" +:+ nl +:+ nl
          +:+ "Hi<|eot_id|>" +:+ nl
          +:+ "<|start_header_id|>assistant<|end_header_id|>"),
     World ∅ []).
Proof. vm_compute. reflexivity. Qed.

Example chat_needs_a_model :
  transcript (session [say false "Hi"]) = [].
Proof. vm_compute. reflexivity. Qed.

Example one_turn :
  transcript (session [press_start; say false "Hi"])
  = [chat_record "user" user_avatar "Hi";
     chat_record "assistant" assistant_avatar "Hello!"].
Proof. vm_compute. reflexivity. Qed.

Example rag_turn_prompt :
  streamed (trace (rerun (say true "Hi")
                     (session [press_start])).2)
  = [({| weight_path := "modularai/llama-3.1/llama-3.1-8b-instruct-q4_k_m.gguf";
         quantization_encoding := q4_k;
         max_length := 12000;
         max_new_tokens := 6000 |},
      "<|begin_of_text|><|start_header_id|>system<|end_header_id|>" +:+ nl +:+ nl
        +:+ "Answer from the context.<|eot_id|>" +:+ nl
        +:+ "<|start_header_id|>user<|end_header_id|>" +:+ nl +:+ nl
        +:+ "Context: MAX is" +:+ nl +:+ nl +:+ "an engine. Question: Hi<|eot_id|>" +:+ nl
        +:+ "<|start_header_id|>assistant<|end_header_id|>")].
Proof. vm_compute. reflexivity. Qed.

(** ** Instances of the claims on the small installation *)

Lemma transcript_append_only_witness :
  ∃ added, added ≠ [] ∧
    transcript (state_after (say true "Hi") (session [press_start]))
    = transcript (session [press_start]) ++ added.
Proof.
  apply (transcript_append_only ∅ [press_start] (say true "Hi") "Hi").
  - simpl. lia.
  - reflexivity.
  - discriminate.
  - right. vm_compute. eexists. reflexivity.
  - eexists _, _. split; [reflexivity|].
    repeat constructor. exists {["file_name" := "notes.txt"]}.
    split; [reflexivity|]. eexists. reflexivity.
Defined.

Lemma user_turn_appends_two_witness :
  ∃ model prompt_string,
    (rerun (say false "Hi") (session [press_start])).1 = inr tt ∧
    streamed (trace (rerun (say false "Hi") (session [press_start])).2)
      = [(model, prompt_string)] ∧
    transcript (state_after (say false "Hi") (session [press_start])) =
      transcript (session [press_start])
        ++ [chat_record "user" user_avatar "Hi";
            chat_record "assistant" assistant_avatar
              (stream_output model prompt_string)].
Proof.
  apply (user_turn_appends_two [press_start] (say false "Hi") "Hi").
  - simpl. lia.
  - reflexivity.
  - discriminate.
  - right. vm_compute. eexists. reflexivity.
  - exact I.
Defined.

Lemma chat_disabled_iff_no_model_witness :
  chat_inputs (trace (rerun idle (session [press_start])).2)
  = [negb (in_button idle) && disable_chat (session [press_start])].
Proof.
  apply (chat_disabled_iff_no_model [press_start] idle).
  simpl. lia.
Defined.

Lemma indexer_gets_the_files_witness :
  indexed (trace (rerun (say true "Hi") ∅).2)
  = [("ragdata", ["notes.txt"])].
Proof.
  refine (proj1 (indexer_gets_the_files (say true "Hi") ∅ _ _)).
  - simpl. lia.
  - reflexivity.
Defined.

(** C5, as stated, fails on a directory that holds a sub-directory: the
    listing names it, the indexer is not handed it. *)
Lemma indexer_skips_directories :
  os_listdir "ragdata" = ["notes.txt"; "drafts"] ∧
  indexed (trace (rerun (say true "Hi") ∅).2)
    = [("ragdata", ["notes.txt"])] ∧
  ¬ indexer_gets_every_entry (say true "Hi") ∅.
Proof.
  split; [reflexivity|]. split; [vm_compute; reflexivity|].
  intros H. specialize (H "ragdata" ["notes.txt"]).
  assert ("drafts" ∈@{gset string} list_to_set ["notes.txt"]) as Hin.
  { rewrite H.
    - apply elem_of_list_to_set. simpl. by apply list_elem_of_further, list_elem_of_here.
    - replace (indexed _) with [("ragdata", ["notes.txt"])] by (vm_compute; reflexivity).
      apply list_elem_of_here. }
  apply elem_of_list_to_set, list_elem_of_singleton in Hin. discriminate.
Qed.


(** With the slider at 3 the one query asks for three results. *)
Example query_asks_for_slider_value :
  queries (Ext := installation)
    (trace (rerun (say_top 3 "Hi") (session [press_start])).2)
  = [("Hi", 3)].
Proof. vm_compute. reflexivity. Qed.

Lemma encoding_lookup_never_fails_witness :
  ∃ e file,
    selectbox encoding_options 1 = Some e ∧
    e ∈ encoding_options ∧
    model_name !! e = Some file ∧
    model_name_getitem (selectbox encoding_options 1) (World ∅ [])
      = (inr (e, file), World ∅ []).
Proof.
  apply (encoding_lookup_never_fails
           {| in_encoding := 1; in_max_length := None; in_max_new_tokens := None;
              in_button := false; in_rag := false; in_system_prompt := None;
              in_n_result := None; in_rag_directory := None; in_chat := None |}
           (World ∅ [])).
  simpl. lia.
Defined.

Lemma messages_to_llama3_prompt_correct_witness :
  messages_to_llama3_prompt
    [chat_record "user" user_avatar "Hi"] (World ∅ [])
  = (inr (llama3_prompt_spec [("user", "Hi")]), World ∅ []).
Proof.
  apply (messages_to_llama3_prompt_correct
           [chat_record "user" user_avatar "Hi"] [("user", "Hi")] (World ∅ [])).
  repeat constructor.
Defined.

Lemma rag_leaves_transcript_prompt_witness :
  ∃ model data,
    let prompt_string :=
      llama3_prompt_spec
        (("system", system_prompt_of (say true "Hi"))
           :: map role_content (transcript (session [press_start]))
           ++ [("user", RAG_PROMPT_format "Hi" data)]) in
    streamed (trace (rerun (say true "Hi") (session [press_start])).2)
      = [(model, prompt_string)] ∧
    transcript (state_after (say true "Hi") (session [press_start])) =
      transcript (session [press_start])
        ++ [chat_record "user" user_avatar "Hi";
            chat_record "assistant" assistant_avatar
              (stream_output model prompt_string)] ∧
    chat_record "user" user_avatar "Hi" !! "content" = Some "Hi".
Proof.
  apply (rag_leaves_transcript_prompt (Ext := installation)
           [press_start] (say true "Hi") "Hi" "Hi" []).
  - simpl. lia.
  - reflexivity.
  - discriminate.
  - right. vm_compute. eexists. reflexivity.
  - reflexivity.
  - reflexivity.
  - repeat constructor. exists {["file_name" := "notes.txt"]}.
    split; [reflexivity|]. eexists. reflexivity.
Defined.

End Installed.

Section Empty.
#[local] Existing Instance empty_installation.

Lemma rag_turn_survives_none_witness :
  (∀ w, retrieved_data no_hits w = (inr [], w)) ∧
  (rerun (say true "Hi") (session [press_start])).1 = inr tt ∧
  ∃ model,
    streamed (trace (rerun (say true "Hi") (session [press_start])).2)
    = [(model,
        llama3_prompt_spec
          (("system", system_prompt_of (say true "Hi"))
             :: map role_content (transcript (session [press_start]))
             ++ [("user", RAG_PROMPT_format "Hi" [])]))].
Proof.
  apply (rag_turn_survives_none (Ext := empty_installation)
           [press_start] (say true "Hi") "Hi" "Hi" []).
  - simpl. lia.
  - reflexivity.
  - discriminate.
  - right. vm_compute. eexists. reflexivity.
  - reflexivity.
  - reflexivity.
  - left. reflexivity.
Defined.

End Empty.

(** ** Missing keys and unreadable results *)

Section Edges.
Context `{Ext : Externals}.

Lemma prompt_loop_app messages parts rest acc w :
  Forall2 has_parts messages parts →
  prompt_loop (messages ++ rest) acc w = prompt_loop rest (acc +:+ blocks parts) w.
Proof.
  intros H. revert acc. induction H as [|m [role content] messages parts [Hr Hc] _ IH];
    intros acc; simpl.
  - by rewrite append_nil_r.
  - simpl in Hr, Hc.
    erewrite bind_inr; [|by apply getitem_Some].
    erewrite bind_inr; [|by apply getitem_Some].
    rewrite IH. unfold message_block. by rewrite !append_assoc.
Qed.

Lemma getitem_None (d : dict) key w :
  d !! key = None → getitem d key w = (inl (KeyError key), w).
Proof. intros H. unfold getitem. by rewrite H. Qed.

(** X1: the first message without a role makes [messages_to_llama3_prompt]
    raise [KeyError] on "role", and the first one with a role but without a
    content [KeyError] on "content"; the messages after it are not read and
    the world is left as it was. *)
Theorem messages_to_llama3_prompt_missing_key (messages : list dict)
    (parts : list (string * string)) (bad : dict) (rest : list dict) (w : world) :
  Forall2 has_parts messages parts →
  (bad !! "role" = None →
   messages_to_llama3_prompt (messages ++ bad :: rest) w
   = (inl (KeyError "role"), w)) ∧
  (is_Some (bad !! "role") → bad !! "content" = None →
   messages_to_llama3_prompt (messages ++ bad :: rest) w
   = (inl (KeyError "content"), w)).
Proof.
  intros H. split.
  - intros Hr. unfold messages_to_llama3_prompt.
    erewrite bind_inl; [done|].
    rewrite (prompt_loop_app _ _ _ _ _ H). simpl.
    erewrite bind_inl; [done|]. by apply getitem_None.
  - intros [role Hr] Hc. unfold messages_to_llama3_prompt.
    erewrite bind_inl; [done|].
    rewrite (prompt_loop_app _ _ _ _ _ H). simpl.
    erewrite bind_inr; [|by apply getitem_Some].
    erewrite bind_inl; [done|]. by apply getitem_None.
Qed.

Lemma read_pair_ok (pair : list string * list dict) w :
  readable pair →
  (let '(doc, metadata) := pair in
   match metadata with
   | [] => raise IndexError
   | first :: _ =>
       file_name ← getitem first "file_name";
       ret (join (nl +:+ nl) doc, file_name)
   end) w = (inr (retrieved_entry pair), w).
Proof.
  destruct pair as [doc [|first others]]; intros (f & Hf & [fn Hfn]); [done|].
  simpl in Hf. injection Hf as <-.
  erewrite bind_inr; [|by apply getitem_Some].
  unfold retrieved_entry. simpl. by rewrite Hfn.
Qed.

Lemma comprehension_ok {A B} (f : A → M B) (g : A → B) l w :
  Forall (λ a, ∀ w, f a w = (inr (g a), w)) l →
  comprehension f l w = (inr (map g l), w).
Proof.
  intros H. revert w. induction H as [|a l Ha _ IH]; intros w; simpl; [done|].
  erewrite bind_inr; [|apply Ha].
  erewrite bind_inr; [|apply IH]. done.
Qed.

Lemma comprehension_raises {A B} (f : A → M B) (g : A → B) good bad rest e w :
  Forall (λ a, ∀ w, f a w = (inr (g a), w)) good →
  (∀ w, f bad w = (inl e, w)) →
  comprehension f (good ++ bad :: rest) w = (inl e, w).
Proof.
  intros H Hbad. revert w. induction H as [|a l Ha _ IH]; intros w; simpl.
  - erewrite bind_inl; [done|apply Hbad].
  - erewrite bind_inr; [|apply Ha].
    erewrite bind_inl; [done|apply IH].
Qed.

(** X2: when every visited pair has a first metadata with a file name, the
    retrieved data is, pair by pair along
    [zip(ret["documents"], ret["metadatas"])], the documents joined by a
    blank line with that file name; what the longer of the two lists has
    beyond the shorter one is not read. *)
Theorem retrieved_data_entries (ret_ : QueryResult) (docs : list (list string))
    (metas : list (list dict)) (w : world) :
  documents ret_ = Some docs → metadatas ret_ = Some metas →
  Forall readable (zip docs metas) →
  retrieved_data ret_ w = (inr (map retrieved_entry (zip docs metas)), w) ∧
  length (zip docs metas) = (length docs `min` length metas)%nat.
Proof.
  intros Hd Hm Hall. split; [|apply length_zip_with].
  unfold retrieved_data. rewrite Hd, Hm.
  apply comprehension_ok. eapply Forall_impl; [exact Hall|].
  intros pair Hp w'. by apply read_pair_ok.
Qed.

(** X3: the first visited pair whose metadata list is empty makes the loop
    raise [IndexError]. *)
Theorem retrieved_data_empty_metadata (ret_ : QueryResult)
    (docs : list (list string)) (metas : list (list dict))
    (good rest : list (list string * list dict)) (doc : list string) (w : world) :
  documents ret_ = Some docs → metadatas ret_ = Some metas →
  zip docs metas = good ++ (doc, []) :: rest →
  Forall readable good →
  retrieved_data ret_ w = (inl IndexError, w).
Proof.
  intros Hd Hm Hzip Hgood. unfold retrieved_data. rewrite Hd, Hm, Hzip.
  apply (comprehension_raises _ retrieved_entry); [|done].
  eapply Forall_impl; [exact Hgood|].
  intros pair Hp w'. by apply read_pair_ok.
Qed.

(** X4: the first visited pair whose first metadata has no "file_name"
    makes the loop raise [KeyError] on that key. *)
Theorem retrieved_data_missing_file_name (ret_ : QueryResult)
    (docs : list (list string)) (metas : list (list dict))
    (good rest : list (list string * list dict)) (doc : list string)
    (first : dict) (others : list dict) (w : world) :
  documents ret_ = Some docs → metadatas ret_ = Some metas →
  zip docs metas = good ++ (doc, first :: others) :: rest →
  Forall readable good →
  first !! "file_name" = None →
  retrieved_data ret_ w = (inl (KeyError "file_name"), w).
Proof.
  intros Hd Hm Hzip Hgood Hfn. unfold retrieved_data. rewrite Hd, Hm, Hzip.
  apply (comprehension_raises _ retrieved_entry).
  - eapply Forall_impl; [exact Hgood|].
    intros pair Hp w'. by apply read_pair_ok.
  - intros w'. erewrite bind_inl; [done|]. by apply getitem_None.
Qed.

End Edges.

(** ** Walks of the script under a condition on the widgets *)

Section Conditional.
Context `{Ext : Externals}.
Context (R : relation world) `{!PreOrder R} (K : event → Prop).
Hypothesis R_emit : ∀ ev, K ev → preserves R (emit ev).
Hypothesis R_init : ∀ w,
  session_state w !! "messages" = None →
  R w (World (<["messages" := VMessages []]> (session_state w)) (trace w)).

Lemma unpressed_model_controls inp :
  in_button inp = false →
  (∀ r f, K (EvDownload r f)) →
  preserves R (model_controls inp).
Proof.
  intros Hb K1. unfold model_controls, model_name_getitem. rewrite Hb.
  destruct (selectbox _ _) as [e|].
  - destruct (model_name !! e) as [file|].
    + apply (preserves_bind R); [apply (preserves_ret R)|]. intros [e' file'].
      apply (preserves_bind R); [by apply R_emit|]. intros _.
      apply (preserves_mret R).
    + apply (preserves_bind R); [apply (preserves_raise R)|]. intros [e' file'].
      apply (preserves_bind R); [by apply R_emit|]. intros _.
      apply (preserves_mret R).
  - apply (preserves_bind R); [apply (preserves_raise R)|]. intros [e' file'].
    apply (preserves_bind R); [by apply R_emit|]. intros _.
    apply (preserves_mret R).
Qed.

Lemma truthy_disabled_or_empty d ui :
  ui = None ∨ ui = Some EmptyString → truthy (chat_input d ui) = None.
Proof. intros [-> | ->]; by destruct d. Qed.

Lemma unsubmitted_chat inp system_prompt rag :
  in_chat inp = None ∨ in_chat inp = Some EmptyString →
  (∀ d, K (EvChatInput d)) →
  preserves R (chat inp system_prompt rag).
Proof.
  intros Hchat K1. unfold chat.
  apply (preserves_bind R); [apply (preserves_read_state R)|]. intros ss.
  apply (preserves_bind R); [by apply R_emit|]. intros _.
  rewrite truthy_disabled_or_empty by done. apply (preserves_ret R).
Qed.

Hypothesis R_model : ∀ m, preserves R (setitem "model" (VModel m)).

Lemma unsubmitted_script inp :
  in_chat inp = None ∨ in_chat inp = Some EmptyString →
  (∀ ev, idle_event ev → K ev) →
  preserves R (script inp).
Proof.
  intros Hchat HK. unfold script.
  apply (preserves_bind R).
  { apply (frame_model_controls R K); auto; intros; by apply HK. }
  intros _. apply (preserves_bind R).
  { apply (frame_rag_controls R K); auto; intros; by apply HK. }
  intros [system_prompt rag]. apply (preserves_bind R).
  { apply (frame_show_history R K); auto; intros; by apply HK. }
  intros _. apply unsubmitted_chat; [done|]. intros; by apply HK.
Qed.

Hypothesis R_iadd : ∀ prompt response w l,
  session_state w !! "messages" = Some (VMessages l) →
  R w (World
         (<["messages" :=
              VMessages (l ++ [chat_record "user" user_avatar prompt;
                               chat_record "assistant" assistant_avatar response])]>
            (session_state w))
         (trace w)).

Lemma plain_chat inp system_prompt :
  (∀ ev, plain_event ev → K ev) →
  preserves R (chat inp system_prompt None).
Proof.
  intros HK. unfold chat.
  apply (preserves_bind R); [apply (preserves_read_state R)|]. intros ss.
  apply (preserves_bind R); [apply R_emit; by apply HK|]. intros _.
  destruct (truthy _) as [prompt|]; [|apply (preserves_ret R)].
  unfold chat_turn.
  apply (preserves_bind R); [apply (frame_getattr_messages R)|]. intros history.
  apply (preserves_bind R).
  { apply (preserves_comprehension R). intros m.
    apply (preserves_bind R); [apply (preserves_getitem R)|]. intros role.
    apply (preserves_bind R); [apply (preserves_getitem R)|]. intros content.
    apply (preserves_ret R). }
  intros copied.
  apply (preserves_bind R); [apply (preserves_ret R)|]. intros message.
  apply (frame_reply R K); auto; intros; by apply HK.
Qed.

Lemma plain_script inp :
  in_rag inp = false →
  (∀ ev, plain_event ev → K ev) →
  preserves R (script inp).
Proof.
  intros Hrag HK. unfold script.
  apply (preserves_bind R).
  { apply (frame_model_controls R K); auto; intros; by apply HK. }
  intros _ w. unfold rag_controls. rewrite Hrag.
  erewrite bind_inr; [|reflexivity].
  apply (preserves_bind_at R).
  { apply (frame_show_history R K); auto; intros; by apply HK. }
  intros _. by apply plain_chat.
Qed.

End Conditional.

(** ** What re-runs keep *)

Section Kept.
Context `{Ext : Externals}.

#[global] Instance same_transcript_preorder : PreOrder same_transcript.
Proof.
  split.
  - intros w. unfold same_transcript. done.
  - intros w1 w2 w3 H12 H23. unfold same_transcript in *. congruence.
Qed.

#[global] Instance same_model_preorder : PreOrder same_model.
Proof.
  split.
  - intros w. unfold same_model. done.
  - intros w1 w2 w3 H12 H23. unfold same_model in *. congruence.
Qed.

#[global] Instance keeps_model_preorder : PreOrder keeps_model.
Proof.
  split.
  - intros w. unfold keeps_model. done.
  - intros w1 w2 w3 H12 H23. unfold keeps_model in *. auto.
Qed.

Lemma keeps_model_script inp : preserves keeps_model (script inp).
Proof.
  apply (frame_script keeps_model (λ _, True)); [| | | |done].
  - intros ev _ w. unfold keeps_model. done.
  - intros m w _. simpl. rewrite lookup_insert_eq. by eexists.
  - intros w _ Hm. simpl. by rewrite lookup_insert_ne.
  - intros prompt response w l _ Hm. simpl. by rewrite lookup_insert_ne.
Qed.

(** X5: once a model is in the session state, no sequence of re-runs takes
    it out again, so the chat box, once enabled, stays enabled. *)
Theorem chat_stays_enabled (ss : gmap string value) (inps : list Inputs) :
  disable_chat ss = false → disable_chat (reruns ss inps) = false.
Proof.
  assert (∀ s : gmap string value, disable_chat s = false ↔ is_Some (s !! "model")) as Hd.
  { intros s. unfold disable_chat.
    destruct (s !! "model") as [v|]; split; intros H; try done. }
  rewrite !Hd. revert ss. induction inps as [|inp inps IH]; intros ss Hm; simpl; [done|].
  apply IH. exact (keeps_model_script inp (World ss []) Hm).
Qed.

Lemma same_model_unpressed inp :
  in_button inp = false → preserves same_model (script inp).
Proof.
  intros Hb.
  assert (∀ ev, True → preserves same_model (emit ev)) as Hemit.
  { intros ev _ w. unfold same_model. done. }
  assert (∀ w, session_state w !! "messages" = None →
               same_model w (World (<["messages" := VMessages []]> (session_state w))
                               (trace w))) as Hinit.
  { intros w _. unfold same_model. simpl. by rewrite lookup_insert_ne. }
  unfold script.
  apply (preserves_bind same_model).
  { by apply (unpressed_model_controls same_model (λ _, True)). }
  intros _. apply (preserves_bind same_model).
  { by apply (frame_rag_controls same_model (λ _, True)). }
  intros [system_prompt rag]. apply (preserves_bind same_model).
  { by apply (frame_show_history same_model (λ _, True)). }
  intros _. apply (frame_chat same_model (λ _, True)); [done| |done..].
  intros prompt response w l _. unfold same_model. simpl. by rewrite lookup_insert_ne.
Qed.

(** X6: re-runs in which the start button is not pressed leave the entry
    "model" of the session state exactly as it was, whatever else happens
    in them. *)
Theorem model_changes_only_on_start (ss : gmap string value) (inps : list Inputs) :
  Forall (λ inp, in_button inp = false) inps →
  reruns ss inps !! "model" = ss !! "model".
Proof.
  intros H. revert ss. induction H as [|inp inps Hb _ IH]; intros ss; simpl; [done|].
  rewrite IH. exact (same_model_unpressed inp Hb (World ss [])).
Qed.

Lemma same_on_quiet {B} (sel : event → option B) inp ss :
  in_chat inp = None ∨ in_chat inp = Some EmptyString →
  (∀ ev, idle_event ev → sel ev = None) →
  omap sel (trace (rerun inp ss).2) = [].
Proof.
  intros Hchat Hsel.
  apply (unsubmitted_script (same_on sel) (λ ev, sel ev = None)); try done.
  intros ev Hev. by apply same_on_emit.
Qed.

(** X8: a re-run in which nothing, or the empty string, comes from the chat
    box changes nothing in the transcript and neither embeds nor queries nor
    calls the model, from any session state. *)
Theorem unsubmitted_rerun_is_quiet (inp : Inputs) (ss : gmap string value) :
  in_chat inp = None ∨ in_chat inp = Some EmptyString →
  transcript (state_after inp ss) = transcript ss ∧
  streamed (trace (rerun inp ss).2) = [] ∧
  queries (trace (rerun inp ss).2) = [] ∧
  embedded (trace (rerun inp ss).2) = [].
Proof.
  intros Hchat. split; [|split; [|split]].
  - refine (unsubmitted_script same_transcript (λ _, True) _ _ _ inp Hchat _
              (World ss [])).
    + intros ev _ w. unfold same_transcript. done.
    + intros w Hm. unfold same_transcript. simpl.
      rewrite transcript_insert_messages. unfold transcript. by rewrite Hm.
    + intros m w. unfold same_transcript. simpl. apply transcript_insert_model.
    + done.
  - apply same_on_quiet; [done|]. by intros [].
  - apply same_on_quiet; [done|]. by intros [].
  - apply same_on_quiet; [done|]. by intros [].
Qed.

Lemma same_on_plain {B} (sel : event → option B) inp ss :
  in_rag inp = false →
  (∀ ev, plain_event ev → sel ev = None) →
  omap sel (trace (rerun inp ss).2) = [].
Proof.
  intros Hrag Hsel.
  apply (plain_script (same_on sel) (λ ev, sel ev = None)); try done.
  intros ev Hev. by apply same_on_emit.
Qed.

(** X9: with the RAG box unticked a re-run never lists or indexes a
    directory, never embeds a prompt and never queries a collection, chat
    turn or not. *)
Theorem rag_off_never_retrieves (inp : Inputs) (ss : gmap string value) :
  in_rag inp = false →
  indexed (trace (rerun inp ss).2) = [] ∧
  embedded (trace (rerun inp ss).2) = [] ∧
  queries (trace (rerun inp ss).2) = [].
Proof.
  intros Hrag. split; [|split]; (apply same_on_plain; [done|]; by intros []).
Qed.

End Kept.

(** ** A re-run appends one turn or nothing *)

Section Atomic.
Context `{Ext : Externals}.

Lemma appends_bind extra {A B} (c : M A) (k : A → M B) :
  preserves same_transcript c →
  (∀ a, appends_at_most extra (k a)) →
  appends_at_most extra (c ≫= k).
Proof.
  intros Hc Hk w. unfold mbind, M_bind, bind.
  specialize (Hc w). unfold same_transcript in Hc.
  destruct (c w) as [[e|a] w1]; simpl in *; [by left|].
  destruct (Hk a w1) as [H|[Hr (added & Hex & H)]].
  - left. congruence.
  - right. split; [done|]. exists added. split; [done|]. congruence.
Qed.

Lemma appends_ret extra {A} (a : A) : appends_at_most extra (ret a).
Proof. intros w. by left. Qed.

Lemma appends_mono (extra extra' : list dict → Prop) {A} (c : M A) :
  (∀ added, extra added → extra' added) →
  appends_at_most extra c → appends_at_most extra' c.
Proof.
  intros Himp Hc w. destruct (Hc w) as [H|[Hr (added & Hex & H)]]; [by left|].
  right. split; [done|]. exists added. auto.
Qed.

Lemma same_transcript_emit ev : preserves same_transcript (emit ev).
Proof. intros w. unfold same_transcript. done. Qed.

Lemma appends_iadd prompt response :
  appends_at_most (turn_records prompt)
    (history ← getattr_messages;
     setitem "messages"
       (VMessages (history ++ [chat_record "user" user_avatar prompt;
                               chat_record "assistant" assistant_avatar response]))).
Proof.
  intros w. unfold getattr_messages, mbind, M_bind, bind, read_state.
  destruct (session_state w !! "messages") as [[m|l]|] eqn:Hl; simpl;
    [by left| |by left].
  right. split; [by exists tt|]. eexists. split; [by exists response|].
  rewrite transcript_insert_messages. unfold transcript. by rewrite Hl.
Qed.

Lemma appends_reply messages prompt :
  appends_at_most (turn_records prompt) (reply messages prompt).
Proof.
  unfold reply.
  apply appends_bind; [apply same_transcript_emit|]. intros _.
  apply appends_bind; [apply same_transcript_emit|]. intros _.
  apply appends_bind;
    [apply (preserves_messages_to_llama3_prompt same_transcript)|]. intros ps.
  apply appends_bind; [apply same_transcript_emit|]. intros _.
  apply appends_bind; [apply (frame_getitem_model same_transcript)|]. intros m.
  apply appends_bind; [apply same_transcript_emit|]. intros _.
  apply appends_iadd.
Qed.

Lemma appends_chat_turn system_prompt rag prompt :
  appends_at_most (turn_records prompt) (chat_turn system_prompt rag prompt).
Proof.
  unfold chat_turn.
  apply appends_bind; [apply (frame_getattr_messages same_transcript)|]. intros l.
  apply appends_bind.
  { apply (preserves_comprehension same_transcript). intros m.
    apply (preserves_bind same_transcript);
      [apply (preserves_getitem same_transcript)|]. intros role.
    apply (preserves_bind same_transcript);
      [apply (preserves_getitem same_transcript)|]. intros content.
    apply (preserves_ret same_transcript). }
  intros copied. apply appends_bind.
  { apply (frame_user_message same_transcript (λ _, True)); [|done..].
    intros ev _. apply same_transcript_emit. }
  intros message. apply appends_reply.
Qed.

Lemma truthy_Some d ui prompt :
  truthy (chat_input d ui) = Some prompt →
  d = false ∧ ui = Some prompt ∧ prompt ≠ EmptyString.
Proof.
  destruct d; [done|]. simpl. destruct ui as [p|]; [|done]. simpl.
  destruct (decide (p = EmptyString)); [done|]. by intros [= <-].
Qed.

Lemma appends_script inp :
  appends_at_most
    (λ added, ∃ prompt, in_chat inp = Some prompt ∧ prompt ≠ EmptyString ∧
                        turn_records prompt added)
    (script inp).
Proof.
  assert (∀ ev, True → preserves same_transcript (emit ev)) as Hemit.
  { intros ev _. apply same_transcript_emit. }
  unfold script. apply appends_bind.
  { apply (frame_model_controls same_transcript (λ _, True)); [done| |done..].
    intros m w. unfold same_transcript. simpl. apply transcript_insert_model. }
  intros _. apply appends_bind.
  { by apply (frame_rag_controls same_transcript (λ _, True)). }
  intros [system_prompt rag]. apply appends_bind.
  { apply (frame_show_history same_transcript (λ _, True)); [done| |done..].
    intros w Hm. unfold same_transcript. simpl.
    rewrite transcript_insert_messages. unfold transcript. by rewrite Hm. }
  intros _. unfold chat.
  apply appends_bind; [apply (preserves_read_state same_transcript)|]. intros ss.
  apply appends_bind; [apply same_transcript_emit|]. intros _.
  destruct (truthy _) as [prompt|] eqn:Ht; [|apply appends_ret].
  apply truthy_Some in Ht as (_ & Hchat & Hne).
  eapply appends_mono; [|apply appends_chat_turn].
  intros added Hadded. by exists prompt.
Qed.

(** X10: whatever the session state and the widgets, a re-run either leaves
    the transcript as it was, or returns normally having appended exactly
    the user record of the non-empty prompt submitted in it followed by one
    assistant record. *)
Theorem rerun_appends_one_turn_or_nothing (inp : Inputs) (ss : gmap string value) :
  transcript (state_after inp ss) = transcript ss ∨
  (rerun inp ss).1 = inr tt ∧
  ∃ prompt response,
    in_chat inp = Some prompt ∧ prompt ≠ EmptyString ∧
    transcript (state_after inp ss) =
      transcript ss ++ [chat_record "user" user_avatar prompt;
                        chat_record "assistant" assistant_avatar response].
Proof.
  destruct (appends_script inp (World ss []))
    as [H|[[[] Hr] (added & (prompt & Hchat & Hne & response & ->) & H)]].
  - by left.
  - right. split; [done|]. by exists prompt, response.
Qed.

Lemma dialogue_app turns1 turns2 :
  dialogue (turns1 ++ turns2) = dialogue turns1 ++ dialogue turns2.
Proof. unfold dialogue. apply flat_map_app. Qed.

Lemma reruns_dialogue ss inps :
  ∃ turns, (length turns ≤ length inps)%nat ∧
           transcript (reruns ss inps) = transcript ss ++ dialogue turns.
Proof.
  revert ss. induction inps as [|inp inps IH]; intros ss; simpl.
  - exists []. simpl. by rewrite app_nil_r.
  - destruct (IH (state_after inp ss)) as (turns & Hlen & Htr).
    destruct (appends_script inp (World ss []))
      as [H|[_ (added & (prompt & _ & _ & response & ->) & H)]].
    + exists turns. split; [lia|]. rewrite Htr. unfold state_after, rerun. by rewrite H.
    + exists ((prompt, response) :: turns). split; [simpl; lia|].
      rewrite Htr. unfold state_after, rerun. rewrite H. simpl.
      by rewrite <- app_assoc.
Qed.

(** X12: the transcript of a browser session is a sequence of turns, each a
    user record with avatar and prompt followed by an assistant record with
    avatar and response, with at most one turn per re-run; in particular it
    never holds a system record. *)
Theorem session_is_dialogue (inps : list Inputs) :
  ∃ turns, (length turns ≤ length inps)%nat ∧
           transcript (session inps) = dialogue turns ∧
           Forall (λ d, d !! "role" ≠ Some "system") (transcript (session inps)).
Proof.
  destruct (reruns_dialogue ∅ inps) as (turns & Hlen & Htr).
  exists turns. split; [done|].
  assert (transcript (session inps) = dialogue turns) as ->.
  { unfold session. rewrite Htr. unfold transcript. by rewrite lookup_empty. }
  split; [done|]. clear. induction turns as [|[prompt response] turns IH]; simpl.
  - constructor.
  - constructor; [by rewrite chat_record_role|].
    constructor; [by rewrite chat_record_role|]. exact IH.
Qed.

End Atomic.

(** ** Turns that stop early, and what the controls do *)

Section Turns.
Context `{Ext : Externals}.

Lemma turn_to_user_message inp ss prompt :
  (in_encoding inp < length encoding_options)%nat →
  wf_state ss →
  in_chat inp = Some prompt → prompt ≠ EmptyString →
  in_button inp = true ∨ is_Some (ss !! "model") →
  ∃ m ss3 tr,
    rerun inp ss =
      (message ← user_message (rag_of inp) prompt;
       reply (([prompt_message "system" (system_prompt_of inp)]
                 ++ map (λ m, prompt_message (role_content m).1 (role_content m).2)
                      (transcript ss))
                ++ [message]) prompt)
        (World ss3 tr) ∧
    ss3 !! "model" = Some (VModel m) ∧
    transcript ss3 = transcript ss ∧
    streamed tr = [] ∧ queries tr = [].
Proof.
  intros Hi Hwf Hchat Hne Hmodel.
  destruct (script_to_chat inp ss Hi Hwf) as (ss1 & tr1 & Hrun & Hss1 & Hstr & Hq & _).
  destruct (model_available inp ss ss1 Hwf Hmodel Hss1) as [m Hm].
  exists m, (<["messages" := VMessages (transcript ss)]> ss1), (tr1 ++ [EvChatInput false]).
  split; [|split; [|split; [|split]]].
  - unfold rerun. rewrite Hrun. unfold chat.
    erewrite bind_inr; [|reflexivity]. simpl session_state.
    unfold disable_chat. rewrite lookup_insert_ne, Hm by done.
    erewrite bind_inr; [|reflexivity].
    rewrite Hchat, truthy_chat_input by done.
    unfold chat_turn.
    erewrite bind_inr; [|by apply getattr_messages_run, lookup_insert_eq].
    erewrite bind_inr; [|by apply copy_history_run, wf_state_transcript].
    cbn [session_state trace]. reflexivity.
  - by rewrite lookup_insert_ne.
  - apply transcript_insert_messages.
  - unfold streamed in *. by rewrite omap_app, Hstr.
  - unfold queries in *. by rewrite omap_app, Hq.
Qed.

(** X13: a RAG turn whose query answers with an empty metadata list for its
    first document list, as for a collection without documents, raises
    [IndexError] after its one query: the model is not called and the
    transcript stays as it was. *)
Theorem rag_turn_raises_on_empty_metadata (inps : list Inputs) (inp : Inputs)
    (prompt : string) (e : Embedding) (rest : list Embedding)
    (doc : list string) (docs : list (list string)) (metas : list (list dict)) :
  (in_encoding inp < length encoding_options)%nat →
  in_chat inp = Some prompt → prompt ≠ EmptyString →
  in_button inp = true ∨ is_Some (session inps !! "model") →
  in_rag inp = true →
  embed (embedding_model (rag_context_of inp)) prompt = e :: rest →
  let ret_ := collection_query (collection (rag_context_of inp)) e
                (n_result (rag_context_of inp)) in
  documents ret_ = Some (doc :: docs) →
  metadatas ret_ = Some ([] :: metas) →
  (rerun inp (session inps)).1 = inl IndexError ∧
  queries (trace (rerun inp (session inps)).2)
    = [(e, slider 1 7 5 (in_n_result inp))] ∧
  streamed (trace (rerun inp (session inps)).2) = [] ∧
  transcript (state_after inp (session inps)) = transcript (session inps).
Proof.
  intros Hi Hchat Hne Hmodel Hrag He ret_ Hd Hm.
  destruct (turn_to_user_message inp (session inps) prompt Hi (session_wf inps)
              Hchat Hne Hmodel) as (m & ss3 & tr & Hrun & _ & Htr & Hstr & Hq).
  unfold state_after.
  assert (rerun inp (session inps)
          = (inl IndexError,
             World ss3 (tr ++ [EvEmbed prompt;
                               EvQuery e (slider 1 7 5 (in_n_result inp))]))) as ->.
  { rewrite Hrun. unfold rag_of. rewrite Hrag. unfold user_message. rewrite He.
    rewrite bind_assoc. erewrite bind_inr; [|reflexivity].
    rewrite bind_assoc. erewrite bind_inr; [|reflexivity].
    rewrite bind_assoc. erewrite bind_inl; last first.
    { fold ret_. unfold retrieved_data. rewrite Hd, Hm. simpl.
      erewrite bind_inl; [|reflexivity]. reflexivity. }
    simpl. by rewrite <- app_assoc. }
  cbn [fst snd trace session_state]. unfold queries, streamed in *.
  rewrite !omap_app, Hq, Hstr. done.
Qed.

(** X14: a RAG turn for whose prompt the embedding model yields no vector
    raises [IndexError] before any query is made; the model is not called
    and the transcript stays as it was. *)
Theorem rag_turn_raises_without_embedding (inps : list Inputs) (inp : Inputs)
    (prompt : string) :
  (in_encoding inp < length encoding_options)%nat →
  in_chat inp = Some prompt → prompt ≠ EmptyString →
  in_button inp = true ∨ is_Some (session inps !! "model") →
  in_rag inp = true →
  embed (embedding_model (rag_context_of inp)) prompt = [] →
  (rerun inp (session inps)).1 = inl IndexError ∧
  queries (trace (rerun inp (session inps)).2) = [] ∧
  streamed (trace (rerun inp (session inps)).2) = [] ∧
  transcript (state_after inp (session inps)) = transcript (session inps).
Proof.
  intros Hi Hchat Hne Hmodel Hrag He.
  destruct (turn_to_user_message inp (session inps) prompt Hi (session_wf inps)
              Hchat Hne Hmodel) as (m & ss3 & tr & Hrun & _ & Htr & Hstr & Hq).
  unfold state_after.
  assert (rerun inp (session inps)
          = (inl IndexError, World ss3 (tr ++ [EvEmbed prompt]))) as ->.
  { rewrite Hrun. unfold rag_of. rewrite Hrag. unfold user_message. rewrite He.
    rewrite bind_assoc. erewrite bind_inr; [|reflexivity].
    erewrite bind_inl; [|reflexivity]. reflexivity. }
  cbn [fst snd trace session_state]. unfold queries, streamed in *.
  rewrite !omap_app, Hq, Hstr. done.
Qed.

Lemma model_controls_exact inp w e file :
  selectbox encoding_options (in_encoding inp) = Some e →
  model_name !! e = Some file →
  model_controls inp w =
    (inr tt,
     World
       (if in_button inp
        then <["model" := VModel (Llama3_init (config_of inp e file))]> (session_state w)
        else session_state w)
       (trace w ++ EvDownload "modularai/llama-3.1" file
          :: if in_button inp then [EvStartLlama3 (config_of inp e file)] else [])).
Proof.
  intros He Hfile. unfold model_controls, model_name_getitem. rewrite He, Hfile.
  unfold start_llama3, mbind, M_bind, bind, ret, emit, setitem, mret, M_ret, config_of.
  simpl. destruct (in_button inp); simpl; [|done].
  by rewrite <- app_assoc.
Qed.

Lemma selected inp :
  (in_encoding inp < length encoding_options)%nat →
  ∃ e file, selectbox encoding_options (in_encoding inp) = Some e ∧
            model_name !! e = Some file.
Proof.
  intros Hi. destruct (selectbox_in_range _ _ Hi) as [e He].
  destruct (model_name_options e (selectbox_elem _ _ _ He)) as [file Hfile].
  by exists e, file.
Qed.

Lemma same_model_after_controls inp :
  preserves same_model
    (rag_controls inp ≫= λ '(system_prompt, rag),
       show_history;; chat inp system_prompt rag).
Proof.
  assert (∀ ev, True → preserves same_model (emit ev)) as Hemit.
  { intros ev _ w. unfold same_model. done. }
  apply (preserves_bind same_model).
  { by apply (frame_rag_controls same_model (λ _, True)). }
  intros [system_prompt rag]. apply (preserves_bind same_model).
  { apply (frame_show_history same_model (λ _, True)); [done| |done..].
    intros w _. unfold same_model. simpl. by rewrite lookup_insert_ne. }
  intros _. apply (frame_chat same_model (λ _, True)); [done| |done..].
  intros prompt response w l _. unfold same_model. simpl. by rewrite lookup_insert_ne.
Qed.

(** X15: pressing the start button leaves in the session state, at the end
    of the re-run and whatever was there before, the model built from the
    downloaded weights of the selected encoding, that encoding, and the two
    token limits of the sidebar. *)
Theorem start_stores_configured_model (inp : Inputs) (ss : gmap string value) :
  (in_encoding inp < length encoding_options)%nat →
  in_button inp = true →
  ∃ e file,
    selectbox encoding_options (in_encoding inp) = Some e ∧
    model_name !! e = Some file ∧
    state_after inp ss !! "model"
    = Some (VModel (Llama3_init
                      {| weight_path := hf_streamlit_download "modularai/llama-3.1" file;
                         quantization_encoding := e;
                         max_length := default 12000 (in_max_length inp);
                         max_new_tokens := default 6000 (in_max_new_tokens inp) |})).
Proof.
  intros Hi Hb. destruct (selected inp Hi) as (e & file & He & Hfile).
  exists e, file. split; [done|]. split; [done|].
  pose proof (model_controls_exact inp (World ss []) e file He Hfile) as Hrun.
  rewrite Hb in Hrun. unfold state_after, rerun, script.
  erewrite bind_inr; [|exact Hrun].
  match goal with
  | |- session_state (?c ?w).2 !! _ = _ =>
      pose proof (same_model_after_controls inp w) as Hs
  end.
  unfold same_model in Hs. rewrite Hs. simpl. by rewrite lookup_insert_eq.
Qed.

(** X16: every re-run asks for one download, of the weight file that
    [model_name] gives for the selected encoding, from the repository
    "modularai/llama-3.1", whether or not the start button is pressed. *)
Theorem one_download_per_rerun (inp : Inputs) (ss : gmap string value) :
  (in_encoding inp < length encoding_options)%nat →
  ∃ e file,
    selectbox encoding_options (in_encoding inp) = Some e ∧
    model_name !! e = Some file ∧
    downloads (trace (rerun inp ss).2) = [("modularai/llama-3.1", file)].
Proof.
  intros Hi. destruct (selected inp Hi) as (e & file & He & Hfile).
  exists e, file. split; [done|]. split; [done|].
  pose proof (model_controls_exact inp (World ss []) e file He Hfile) as Hrun.
  unfold rerun, script. erewrite bind_inr; [|exact Hrun].
  match goal with
  | |- downloads (trace ((?c ≫= ?k) ?w).2) = _ =>
      assert (preserves
                (same_on (λ ev, match ev with
                                | EvDownload r f => Some (r, f) | _ => None end))
                (c ≫= k)) as Hs;
      [|specialize (Hs w); unfold same_on in Hs; unfold downloads; rewrite Hs]
  end.
  { apply (preserves_bind (same_on _)); [by apply silent_rag_controls|].
    intros [system_prompt rag].
    apply (preserves_bind (same_on _)); [by apply silent_show_history|]. intros _.
    apply silent_chat; [by intros []|done]. }
  simpl. by destruct (in_button inp).
Qed.

Lemma role_content_dialogue turns :
  map role_content (dialogue turns) = dialogue_parts turns.
Proof.
  induction turns as [|[prompt response] turns IH]; simpl; [done|].
  unfold role_content at 1 2.
  rewrite !chat_record_role, !chat_record_content. simpl. by rewrite IH.
Qed.

(** X17: with RAG off, the one prompt string a turn streams to the model is
    the system prompt of the sidebar (the coding-assistant text unless
    edited), then the prompts and responses of all earlier turns of the
    session in order, as user and assistant messages without their avatars,
    then the typed prompt as a user message. *)
Theorem plain_turn_prompt (inps : list Inputs) (inp : Inputs) (prompt : string) :
  (in_encoding inp < length encoding_options)%nat →
  in_chat inp = Some prompt → prompt ≠ EmptyString →
  in_button inp = true ∨ is_Some (session inps !! "model") →
  in_rag inp = false →
  ∃ model turns,
    transcript (session inps) = dialogue turns ∧
    streamed (trace (rerun inp (session inps)).2)
    = [(model,
        llama3_prompt_spec
          (("system",
            default "You are a helpful coding assistant named MAX Llama3."
              (in_system_prompt inp))
             :: dialogue_parts turns ++ [("user", prompt)]))].
Proof.
  intros Hi Hchat Hne Hmodel Hrag.
  destruct (reruns_dialogue ∅ inps) as (turns & _ & Hturns).
  assert (transcript (session inps) = dialogue turns) as Htr.
  { unfold session. rewrite Hturns. unfold transcript. by rewrite lookup_empty. }
  destruct (turn_run inp (session inps) prompt prompt Hi (session_wf inps)
              Hchat Hne Hmodel) as (m & ss' & tr & Hrun & _ & Hstr).
  { intros w. exists (trace w). unfold rag_of. rewrite Hrag.
    rewrite user_message_plain. by destruct w. }
  exists m, turns. split; [done|]. rewrite Hrun. simpl. rewrite Hstr.
  rewrite Htr, role_content_dialogue. unfold system_prompt_of. by rewrite Hrag.
Qed.

Lemma show_history_trace w :
  wf_state (session_state w) →
  show_history w =
    (inr tt,
     World (<["messages" := VMessages (transcript (session_state w))]> (session_state w))
       (trace w ++ history_events (transcript (session_state w)))).
Proof.
  intros Hwf. pose proof (wf_state_transcript _ Hwf) as Hl.
  destruct Hwf as [Hmsg _]. unfold show_history.
  rewrite (bind_inr read_state _ w (session_state w) w) by done.
  unfold transcript in *.
  destruct (session_state w !! "messages") as [v|] eqn:Hv.
  - destruct (Hmsg v eq_refl) as (l & -> & _).
    rewrite (bind_inr (ret tt) _ w tt w) by done.
    rewrite (bind_inr _ _ _ _ _ (getattr_messages_run w l Hv)).
    rewrite display_run by done. by rewrite insert_id.
  - erewrite bind_inr; [|reflexivity].
    erewrite bind_inr; [|apply getattr_messages_run; simpl; apply lookup_insert_eq].
    by rewrite display_run.
Qed.

Lemma displayed_history turns :
  displayed (history_events (dialogue turns)) = bubbles turns.
Proof.
  induction turns as [|[prompt response] turns IH]; [done|].
  change (dialogue ((prompt, response) :: turns))
    with ([chat_record "user" user_avatar prompt;
           chat_record "assistant" assistant_avatar response] ++ dialogue turns).
  change (bubbles ((prompt, response) :: turns))
    with ([EvChatMessage "user" user_avatar; EvMarkdown prompt;
           EvChatMessage "assistant" assistant_avatar; EvMarkdown response]
            ++ bubbles turns).
  unfold history_events. rewrite flat_map_app.
  unfold displayed. rewrite omap_app.
  change (omap _ (flat_map _ (dialogue turns)))
    with (displayed (history_events (dialogue turns))).
  rewrite IH. by f_equal.
Qed.

(** X18: a re-run without a submitted prompt puts the whole transcript of
    the session back on the page, turn by turn in order: the user bubble
    with its avatar and the prompt, then the assistant bubble with its
    avatar and the response, and nothing else in chat bubbles. *)
Theorem history_is_replayed (inps : list Inputs) (inp : Inputs) :
  (in_encoding inp < length encoding_options)%nat →
  in_chat inp = None →
  ∃ turns,
    transcript (session inps) = dialogue turns ∧
    displayed (trace (rerun inp (session inps)).2) = bubbles turns.
Proof.
  intros Hi Hchat.
  destruct (reruns_dialogue ∅ inps) as (turns & _ & Hturns).
  assert (transcript (session inps) = dialogue turns) as Htr.
  { unfold session. rewrite Hturns. unfold transcript. by rewrite lookup_empty. }
  exists turns. split; [done|].
  destruct (selected inp Hi) as (e & file & He & Hfile).
  pose proof (model_controls_exact inp (World (session inps) []) e file He Hfile) as Hrun1.
  set (ss1 := if in_button inp
              then <["model" := VModel (Llama3_init (config_of inp e file))]> (session inps)
              else session inps) in *.
  assert (wf_state ss1 ∧ transcript ss1 = transcript (session inps)) as [Hwf1 Htr1].
  { unfold ss1. destruct (in_button inp).
    - split; [apply wf_state_insert_model, session_wf|apply transcript_insert_model].
    - split; [apply session_wf|done]. }
  unfold rerun, script.
  erewrite bind_inr; [|exact Hrun1].
  match goal with
  | |- context [(rag_controls inp ≫= ?k) ?w] =>
      rewrite (bind_inr (rag_controls inp) k w _ _ (rag_controls_run inp w))
  end.
  erewrite bind_inr; [|by apply show_history_trace].
  match goal with
  | |- displayed (trace (chat _ _ _ ?w).2) = _ =>
      pose proof (unsubmitted_chat
                    (same_on (λ ev, match ev with
                                    | EvChatMessage _ _ | EvMarkdown _ => Some ev
                                    | _ => None
                                    end))
                    (λ ev, match ev with
                           | EvChatMessage _ _ | EvMarkdown _ => Some ev
                           | _ => None
                           end = None)
                    (λ ev Hev, same_on_emit _ ev Hev)
                    inp (system_prompt_of inp) (rag_of inp)
                    (or_introl Hchat) (λ d, eq_refl) w) as Hs
  end.
  unfold same_on in Hs. unfold displayed at 1. rewrite Hs.
  cbn [trace session_state]. fold ss1. rewrite Htr1, Htr.
  rewrite !omap_app. fold (displayed (history_events (dialogue turns))).
  rewrite displayed_history. simpl. by destruct (in_button inp), (in_rag inp).
Qed.

(** X19: while no model is in the session state and the start button is
    not pressed, the re-run completes with the chat box disabled, and a
    prompt that arrives from it all the same is dropped: no call to the
    model, no query, no change of the transcript. *)
Theorem prompt_without_model_is_dropped (inps : list Inputs) (inp : Inputs) :
  (in_encoding inp < length encoding_options)%nat →
  session inps !! "model" = None →
  in_button inp = false →
  (rerun inp (session inps)).1 = inr tt ∧
  chat_inputs (trace (rerun inp (session inps)).2) = [true] ∧
  streamed (trace (rerun inp (session inps)).2) = [] ∧
  queries (trace (rerun inp (session inps)).2) = [] ∧
  transcript (state_after inp (session inps)) = transcript (session inps).
Proof.
  intros Hi Hm Hb.
  destruct (script_to_chat inp (session inps) Hi (session_wf inps))
    as (ss1 & tr1 & Hrun & Hss1 & Hstr & Hq & Hin).
  rewrite Hb in Hss1. subst ss1.
  unfold state_after.
  assert (rerun inp (session inps)
          = (inr tt,
             World (<["messages" := VMessages (transcript (session inps))]> (session inps))
               (tr1 ++ [EvChatInput true]))) as ->.
  { unfold rerun. rewrite Hrun. unfold chat.
    erewrite bind_inr; [|reflexivity]. simpl session_state.
    unfold disable_chat. rewrite lookup_insert_ne, Hm by done.
    erewrite bind_inr; [|reflexivity]. reflexivity. }
  cbn [fst snd trace session_state].
  unfold chat_inputs, streamed, queries in *.
  rewrite !omap_app, Hin, Hstr, Hq, transcript_insert_messages. done.
Qed.

End Turns.

(** ** Instances on the small installations *)

Section InstalledMore.
#[local] Existing Instance installation.

Lemma messages_to_llama3_prompt_missing_key_witness :
  (({["content" := "Hi"]} : dict) !! "role" = None →
   messages_to_llama3_prompt
     ([prompt_message "system" "Be brief."] ++ {["content" := "Hi"]} :: [])
     (World ∅ [])
   = (inl (KeyError "role"), World ∅ [])) ∧
  (is_Some (({["content" := "Hi"]} : dict) !! "role") →
   ({["content" := "Hi"]} : dict) !! "content" = None →
   messages_to_llama3_prompt
     ([prompt_message "system" "Be brief."] ++ {["content" := "Hi"]} :: [])
     (World ∅ [])
   = (inl (KeyError "content"), World ∅ [])).
Proof.
  apply (messages_to_llama3_prompt_missing_key
           [prompt_message "system" "Be brief."] [("system", "Be brief.")]
           {["content" := "Hi"]} [] (World ∅ [])).
  repeat constructor.
Defined.

Lemma retrieved_data_entries_witness :
  retrieved_data demo_result (World ∅ [])
  = (inr (map retrieved_entry
            (zip [["MAX is"; "an engine."]] [[ {["file_name" := "notes.txt"]} ]])),
     World ∅ []) ∧
  length (zip [["MAX is"; "an engine."]]
            [[ ({["file_name" := "notes.txt"]} : dict) ]])
  = (length [["MAX is"; "an engine."]]
       `min` length [[ ({["file_name" := "notes.txt"]} : dict) ]])%nat.
Proof.
  apply (retrieved_data_entries demo_result
           [["MAX is"; "an engine."]] [[ {["file_name" := "notes.txt"]} ]]
           (World ∅ [])).
  - reflexivity.
  - reflexivity.
  - repeat constructor. exists {["file_name" := "notes.txt"]}.
    split; [reflexivity|]. eexists. reflexivity.
Defined.

Lemma retrieved_data_empty_metadata_witness :
  retrieved_data empty_collection (World ∅ []) = (inl IndexError, World ∅ []).
Proof.
  apply (retrieved_data_empty_metadata empty_collection [[]] [[]] [] [] []
           (World ∅ [])).
  - reflexivity.
  - reflexivity.
  - reflexivity.
  - constructor.
Defined.

Lemma retrieved_data_missing_file_name_witness :
  retrieved_data {| documents := Some [["text"]];
                    metadatas := Some [[ {["page" := "1"]} ]] |} (World ∅ [])
  = (inl (KeyError "file_name"), World ∅ []).
Proof.
  apply (retrieved_data_missing_file_name
           {| documents := Some [["text"]]; metadatas := Some [[ {["page" := "1"]} ]] |}
           [["text"]] [[ {["page" := "1"]} ]] [] [] ["text"] {["page" := "1"]} []
           (World ∅ [])).
  - reflexivity.
  - reflexivity.
  - reflexivity.
  - constructor.
  - reflexivity.
Defined.

Lemma chat_stays_enabled_witness :
  disable_chat (reruns (session [press_start]) [idle; say true "Hi"]) = false.
Proof.
  apply (chat_stays_enabled (session [press_start]) [idle; say true "Hi"]).
  vm_compute. reflexivity.
Defined.

Lemma model_changes_only_on_start_witness :
  reruns (session [press_start]) [idle; say false "Hi"] !! "model"
  = session [press_start] !! "model".
Proof.
  apply (model_changes_only_on_start (session [press_start]) [idle; say false "Hi"]).
  repeat constructor.
Defined.

Lemma unsubmitted_rerun_is_quiet_witness :
  transcript (state_after (say true EmptyString) (session [press_start]))
    = transcript (session [press_start]) ∧
  streamed (trace (rerun (say true EmptyString) (session [press_start])).2) = [] ∧
  queries (trace (rerun (say true EmptyString) (session [press_start])).2) = [] ∧
  embedded (trace (rerun (say true EmptyString) (session [press_start])).2) = [].
Proof.
  apply (unsubmitted_rerun_is_quiet (say true EmptyString) (session [press_start])).
  right. reflexivity.
Defined.

Lemma rag_off_never_retrieves_witness :
  indexed (trace (rerun (say false "Hi") (session [press_start])).2) = [] ∧
  embedded (trace (rerun (say false "Hi") (session [press_start])).2) = [] ∧
  queries (trace (rerun (say false "Hi") (session [press_start])).2) = [].
Proof.
  apply (rag_off_never_retrieves (say false "Hi") (session [press_start])).
  reflexivity.
Defined.

Lemma start_stores_configured_model_witness :
  ∃ e file,
    selectbox encoding_options 2 = Some e ∧
    model_name !! e = Some file ∧
    state_after (start_and_say "Hi") ∅ !! "model"
    = Some (VModel (Llama3_init
                      {| weight_path := hf_streamlit_download "modularai/llama-3.1" file;
                         quantization_encoding := e;
                         max_length := default 12000 (Some 4096);
                         max_new_tokens := default 6000 None |})).
Proof.
  apply (start_stores_configured_model (start_and_say "Hi") ∅).
  - simpl. lia.
  - reflexivity.
Defined.

Lemma one_download_per_rerun_witness :
  ∃ e file,
    selectbox encoding_options 0 = Some e ∧
    model_name !! e = Some file ∧
    downloads (trace (rerun idle ∅).2) = [("modularai/llama-3.1", file)].
Proof.
  apply (one_download_per_rerun idle ∅). simpl. lia.
Defined.

Lemma plain_turn_prompt_witness :
  ∃ model turns,
    transcript (session [press_start; say false "Hi"]) = dialogue turns ∧
    streamed (trace (rerun (say false "More")
                       (session [press_start; say false "Hi"])).2)
    = [(model,
        llama3_prompt_spec
          (("system",
            default "You are a helpful coding assistant named MAX Llama3."
              (in_system_prompt (say false "More")))
             :: dialogue_parts turns ++ [("user", "More")]))].
Proof.
  apply (plain_turn_prompt [press_start; say false "Hi"] (say false "More") "More").
  - simpl. lia.
  - reflexivity.
  - discriminate.
  - right. vm_compute. eexists. reflexivity.
  - reflexivity.
Defined.

Lemma history_is_replayed_witness :
  ∃ turns,
    transcript (session [press_start; say false "Hi"]) = dialogue turns ∧
    displayed (trace (rerun idle (session [press_start; say false "Hi"])).2)
    = bubbles turns.
Proof.
  apply (history_is_replayed [press_start; say false "Hi"] idle).
  - simpl. lia.
  - reflexivity.
Defined.

Lemma prompt_without_model_is_dropped_witness :
  (rerun (say false "Hi") (session [idle])).1 = inr tt ∧
  chat_inputs (trace (rerun (say false "Hi") (session [idle])).2) = [true] ∧
  streamed (trace (rerun (say false "Hi") (session [idle])).2) = [] ∧
  queries (trace (rerun (say false "Hi") (session [idle])).2) = [] ∧
  transcript (state_after (say false "Hi") (session [idle]))
    = transcript (session [idle]).
Proof.
  apply (prompt_without_model_is_dropped [idle] (say false "Hi")).
  - simpl. lia.
  - vm_compute. reflexivity.
  - reflexivity.
Defined.

End InstalledMore.

Section Unindexed.
#[local] Existing Instance unindexed_installation.

(** C1, as stated, fails on a turn whose retrieval raises: a prompt is
    submitted with a model in the session state, and the transcript gets no
    new record. *)
Lemma failed_turn_adds_no_record :
  in_chat (say true "Hi") = Some "Hi" ∧
  is_Some (session [press_start] !! "model") ∧
  (rerun (say true "Hi") (session [press_start])).1 = inl IndexError ∧
  ∀ added,
    transcript (state_after (say true "Hi") (session [press_start]))
    = transcript (session [press_start]) ++ added →
    added = [].
Proof.
  split; [reflexivity|]. split; [vm_compute; by eexists|].
  split; [vm_compute; reflexivity|].
  intros added.
  replace (transcript (state_after (say true "Hi") (session [press_start])))
    with (@nil dict) by (vm_compute; reflexivity).
  replace (transcript (session [press_start]))
    with (@nil dict) by (vm_compute; reflexivity).
  simpl. intros H. by symmetry.
Qed.

(** C2, as stated, fails on the same kind of turn later in a session: the
    collection answers with an empty metadata list, line 170 raises, and
    the two records of the turn are not appended. *)
Lemma rag_turn_on_empty_collection_appends_nothing :
  in_chat (say true "More") = Some "More" ∧
  is_Some (session [press_start; say false "Hi"] !! "model") ∧
  (rerun (say true "More") (session [press_start; say false "Hi"])).1
    = inl IndexError ∧
  transcript (state_after (say true "More") (session [press_start; say false "Hi"]))
    = transcript (session [press_start; say false "Hi"]) ∧
  ¬ ∃ response,
      transcript (state_after (say true "More")
                    (session [press_start; say false "Hi"]))
      = transcript (session [press_start; say false "Hi"])
          ++ [chat_record "user" user_avatar "More";
              chat_record "assistant" assistant_avatar response].
Proof.
  assert (transcript (state_after (say true "More")
                        (session [press_start; say false "Hi"]))
          = transcript (session [press_start; say false "Hi"])) as Hsame.
  { vm_compute. reflexivity. }
  split; [reflexivity|]. split; [vm_compute; by eexists|].
  split; [vm_compute; reflexivity|]. split; [exact Hsame|].
  intros [response H]. rewrite Hsame in H.
  apply (f_equal length) in H. rewrite length_app in H. simpl in H. lia.
Qed.

Lemma rag_turn_raises_on_empty_metadata_witness :
  (rerun (say true "Hi") (session [press_start])).1 = inl IndexError ∧
  queries (Ext := unindexed_installation)
      (trace (rerun (say true "Hi") (session [press_start])).2)
    = [("Hi", slider 1 7 5 (in_n_result (say true "Hi")))] ∧
  streamed (trace (rerun (say true "Hi") (session [press_start])).2) = [] ∧
  transcript (state_after (say true "Hi") (session [press_start]))
    = transcript (session [press_start]).
Proof.
  apply (rag_turn_raises_on_empty_metadata (Ext := unindexed_installation)
           [press_start] (say true "Hi") "Hi" "Hi" [] [] [] []).
  - simpl. lia.
  - reflexivity.
  - discriminate.
  - right. vm_compute. eexists. reflexivity.
  - reflexivity.
  - reflexivity.
  - reflexivity.
  - reflexivity.
Defined.

End Unindexed.

Section Mute.
#[local] Existing Instance mute_installation.


Lemma rag_turn_raises_without_embedding_witness :
  (rerun (say true "Hi") (session [press_start])).1 = inl IndexError ∧
  queries (trace (rerun (say true "Hi") (session [press_start])).2) = [] ∧
  streamed (trace (rerun (say true "Hi") (session [press_start])).2) = [] ∧
  transcript (state_after (say true "Hi") (session [press_start]))
    = transcript (session [press_start]).
Proof.
  apply (rag_turn_raises_without_embedding [press_start] (say true "Hi") "Hi").
  - simpl. lia.
  - reflexivity.
  - discriminate.
  - right. vm_compute. eexists. reflexivity.
  - reflexivity.
  - reflexivity.
Defined.

End Mute.
